(** * Task tracker CLI (src/main.py): shallow embedding and verified properties

    The program keeps a list of [Task] objects in a [TaskManager], loads it
    from a JSON file when the manager is constructed and rewrites the whole
    file after every mutation.

    Modelling choices, all taken from the source:
    - Python values that [json.load] can produce are the type [pyval]; a
      task's five attributes hold such values, because [Task.from_dict]
      stores whatever the file contains without checking its type.
    - The [json] library is not part of the repository.  A file is modelled
      by what reading it with [open(..., encoding="utf-8")] and [json.load]
      makes of it: its bytes are not valid UTF-8 and the read raises
      [UnicodeDecodeError], or its text is rejected with [JSONDecodeError],
      or it decodes to a value; [json.dump] writes a text that decodes to
      the value dumped.  Floats are left out of [pyval].
    - [datetime.datetime.now().strftime(...)] and [str(uuid.uuid4())] read
      the environment.  Each call consumes the next reading of an oracle
      carried by the [World].
    - Exceptions are explicit results; the state reached when an exception
      is raised is kept, as in Python.
    - An argument that the code only compares with [==] (the [uuid] of the
      operations, the [status] of [list_tasks]) is a [str] or [None], which
      is all the command line can pass; an argument that is stored is any
      value.
    - The file system is a finite map from path to content in which every
      path can be opened for writing; I/O faults other than a missing file
      are outside the model. *)

From Stdlib Require Import String Ascii ZArith.
From stdpp Require Import base option list gmap strings.

Local Open Scope string_scope.
Local Open Scope list_scope.

Set Warnings "-register-all".

(** ** Python values *)

Inductive pyval : Type :=
| PNone
| PBool (b : bool)
| PInt (z : Z)
| PStr (s : string)
| PList (l : list pyval)
| PDict (d : list (string * pyval)).

(** [v == s] for a [str] [s]: only an equal string compares equal. *)
Definition py_eq_str (v : pyval) (s : string) : bool :=
  match v with
  | PStr s' => String.eqb s' s
  | _ => false
  end.

(** [v == o] where [o] is [None] or a [str]. *)
Definition py_eq_opt_str (v : pyval) (o : option string) : bool :=
  match o with
  | None => match v with PNone => true | _ => false end
  | Some s => py_eq_str v s
  end.

(** A value that is a [str] or [None], as a Python value. *)
Definition of_arg (o : option string) : pyval :=
  match o with
  | None => PNone
  | Some s => PStr s
  end.

(** [v is not None] *)
Definition is_not_None (v : pyval) : bool :=
  match v with PNone => false | _ => true end.

Inductive exn : Type :=
| FileNotFoundError
| JSONDecodeError
| UnicodeDecodeError
| KeyError (key : string)
| TypeError
| AttributeError (name : string)
| SystemExit (code : Z).

Inductive result (A : Type) : Type :=
| Ok (a : A)
| Raise (e : exn).
Arguments Ok {A} a.
Arguments Raise {A} e.

(** [d[k]] on a Python dict; the keys of a dict are pairwise distinct. *)
Fixpoint dict_get (k : string) (d : list (string * pyval)) : option pyval :=
  match d with
  | [] => None
  | (k', v) :: d' => if String.eqb k' k then Some v else dict_get k d'
  end.

(** [data[k]] for a string key [k] on an arbitrary value. *)
Definition subscript (data : pyval) (k : string) : result pyval :=
  match data with
  | PDict d => match dict_get k d with
               | Some v => Ok v
               | None => Raise (KeyError k)
               end
  | _ => Raise TypeError
  end.

Fixpoint chars (s : string) : list pyval :=
  match s with
  | EmptyString => []
  | String c s' => PStr (String c EmptyString) :: chars s'
  end.

(** [for item in data]: the items a value yields, or [TypeError]. *)
Definition py_iter (data : pyval) : result (list pyval) :=
  match data with
  | PList l => Ok l
  | PDict d => Ok (map (fun kv => PStr (fst kv)) d)
  | PStr s => Ok (chars s)
  | _ => Raise TypeError
  end.

(** ** Output *)

(** A printed f-string: literal text and interpolated values. *)
Inductive piece : Type :=
| Lit (s : string)
| Val (v : pyval).

Inductive out : Type :=
| Line (ps : list piece)
| Usage.

Definition nl : string := String (ascii_of_nat 10) EmptyString.

(** ** The environment *)

(** What a file holds: bytes that are not valid UTF-8; UTF-8 text that is
    not valid JSON; or UTF-8 text that [json.load] decodes to [v]. *)
Inductive fcontent : Type :=
| NotUtf8 (bytes : string)
| Undecodable (raw : string)
| Document (v : pyval).

Record World : Type := mkWorld {
  fs : gmap string fcontent;
  clock : nat -> string;
  ticks : nat;
  uuid_src : nat -> string;
  draws : nat;
  stdout : list out
}.

Definition M (A : Type) : Type := World -> result A * World.

Definition ret {A} (a : A) : M A := fun w => (Ok a, w).

Definition raise {A} (e : exn) : M A := fun w => (Raise e, w).

Definition bind {A B} (m : M A) (k : A -> M B) : M B :=
  fun w => match m w with
           | (Ok a, w') => k a w'
           | (Raise e, w') => (Raise e, w')
           end.

Definition lift {A} (r : result A) : M A := fun w => (r, w).

#[global] Instance M_ret : MRet M := @ret.
#[global] Instance M_bind : MBind M := fun A B k m => bind m k.
#[global] Instance M_fmap : FMap M := fun A B f m => bind m (fun a => ret (f a)).

(** [datetime.datetime.now().strftime("%Y-%m-%d %H:%M:%S")] *)
Definition now : M string :=
  fun w => (Ok (clock w (ticks w)),
            mkWorld (fs w) (clock w) (S (ticks w)) (uuid_src w) (draws w) (stdout w)).

(** [str(uuid.uuid4())] *)
Definition uuid4 : M string :=
  fun w => (Ok (uuid_src w (draws w)),
            mkWorld (fs w) (clock w) (ticks w) (uuid_src w) (S (draws w)) (stdout w)).

Definition print (ps : list piece) : M unit :=
  fun w => (Ok tt,
            mkWorld (fs w) (clock w) (ticks w) (uuid_src w) (draws w)
                    (stdout w ++ [Line ps])).

Definition print_help : M unit :=
  fun w => (Ok tt,
            mkWorld (fs w) (clock w) (ticks w) (uuid_src w) (draws w)
                    (stdout w ++ [Usage])).

(** [json.load(open(filename, "r"))] *)
Definition json_load (filename : string) : M pyval :=
  fun w => match fs w !! filename with
           | None => (Raise FileNotFoundError, w)
           | Some (NotUtf8 _) => (Raise UnicodeDecodeError, w)
           | Some (Undecodable _) => (Raise JSONDecodeError, w)
           | Some (Document v) => (Ok v, w)
           end.

(** [json.dump(v, open(filename, "w"))] *)
Definition json_dump (filename : string) (v : pyval) : M unit :=
  fun w => (Ok tt,
            mkWorld (<[filename := Document v]> (fs w)) (clock w) (ticks w)
                    (uuid_src w) (draws w) (stdout w)).

(** ** class Task *)

Record Task : Type := mkTask {
  id : pyval;
  description : pyval;
  status : pyval;
  createdAt : pyval;
  updatedAt : pyval
}.

Module TaskC.

(** [Task.__init__]; an argument left out is passed as its default. *)
Definition __init__ (description id status createdAt updatedAt : pyval) : M Task :=
  id' ← (if is_not_None id then ret id else PStr <$> uuid4);
  c' ← (if is_not_None createdAt then ret createdAt else PStr <$> now);
  u' ← (if is_not_None updatedAt then ret updatedAt else PStr <$> now);
  ret (mkTask id' description status c' u').

(** [Task(description=description)] *)
Definition new (description : pyval) : M Task :=
  __init__ description PNone (PStr "todo") PNone PNone.

Definition to_dict (t : Task) : pyval :=
  PDict [("id", id t); ("description", description t); ("status", status t);
         ("createdAt", createdAt t); ("updatedAt", updatedAt t)].

Definition from_dict (data : pyval) : M Task :=
  i ← lift (subscript data "id");
  d ← lift (subscript data "description");
  s ← lift (subscript data "status");
  c ← lift (subscript data "createdAt");
  u ← lift (subscript data "updatedAt");
  __init__ d i s c u.

End TaskC.

(** ** class TaskManager *)

Record TaskManager : Type := mkTaskManager {
  filename : string;
  tasks : list Task
}.

(** [try: body except (FileNotFoundError, json.JSONDecodeError): handler] *)
Definition try_except {A} (body handler : M A) : M A :=
  fun w => match body w with
           | (Raise FileNotFoundError, w') => handler w'
           | (Raise JSONDecodeError, w') => handler w'
           | r => r
           end.

Module TaskManagerC.

(** The list that [_load_tasks] assigns to [self.tasks]. *)
Definition _load_tasks (filename : string) : M (list Task) :=
  try_except
    (data ← json_load filename;
     items ← lift (py_iter data);
     mapM TaskC.from_dict items)
    (ret []).

Definition __init__ (filename : string) : M TaskManager :=
  ts ← _load_tasks filename;
  ret (mkTaskManager filename ts).

Definition _save_tasks (self : TaskManager) : M unit :=
  json_dump (filename self) (PList (map TaskC.to_dict (tasks self))).

(** The scan of [_find_task] over a list, counting positions from [i]. *)
Fixpoint find_from (i : nat) (uuid : option string) (l : list Task)
  : option (nat * Task) :=
  match l with
  | [] => None
  | task :: l' =>
      if py_eq_opt_str (id task) uuid then Some (i, task)
      else find_from (S i) uuid l'
  end.

(** [_find_task] returns a reference to an element of [self.tasks]; the
    reference is the element's position together with its value. *)
Definition _find_task (self : TaskManager) (uuid : option string)
  : option (nat * Task) :=
  find_from 0 uuid (tasks self).

Definition create_task (self : TaskManager) (description : pyval) : M TaskManager :=
  task ← TaskC.new description;
  let self := mkTaskManager (filename self) (tasks self ++ [task]) in
  _ ← _save_tasks self;
  _ ← print [Lit "Task added successfully: "; Val (id task)];
  ret self.

Definition update_task (self : TaskManager) (uuid : option string)
           (new_description : pyval) : M TaskManager :=
  match _find_task self uuid with
  | Some (i, task) =>
      let task := mkTask (id task) new_description (status task)
                         (createdAt task) (updatedAt task) in
      t ← now;
      let task := mkTask (id task) (description task) (status task)
                         (createdAt task) (PStr t) in
      let self := mkTaskManager (filename self) (<[i := task]> (tasks self)) in
      _ ← _save_tasks self;
      _ ← print [Lit "Task with id "; Val (of_arg uuid);
                 Lit " was successfully updated"];
      ret self
  | None =>
      _ ← print [Lit "Task with id "; Val (of_arg uuid); Lit " not found."];
      ret self
  end.

(** [self.tasks.remove(task)] drops the first element equal to [task],
    which is the element [_find_task] returned. *)
Definition delete_task (self : TaskManager) (uuid : option string) : M TaskManager :=
  match _find_task self uuid with
  | Some (i, task) =>
      let self := mkTaskManager (filename self) (delete i (tasks self)) in
      _ ← _save_tasks self;
      _ ← print [Lit "Task with id "; Val (of_arg uuid);
                 Lit " deleted successfully."];
      ret self
  | None =>
      _ ← print [Lit "Task with id "; Val (of_arg uuid); Lit " not found."];
      ret self
  end.

Definition mark_task (self : TaskManager) (uuid : option string)
           (new_status : pyval) : M TaskManager :=
  match _find_task self uuid with
  | Some (i, task) =>
      let task := mkTask (id task) (description task) new_status
                         (createdAt task) (updatedAt task) in
      t ← now;
      let task := mkTask (id task) (description task) (status task)
                         (createdAt task) (PStr t) in
      let self := mkTaskManager (filename self) (<[i := task]> (tasks self)) in
      _ ← _save_tasks self;
      _ ← print [Lit "Task with id "; Val (of_arg uuid); Lit " marked as ";
                 Val new_status; Lit "."];
      ret self
  | None =>
      _ ← print [Lit "Task with id "; Val (of_arg uuid); Lit " not found."];
      ret self
  end.

(** The five [print] calls of one branch of the loop in [list_tasks]. *)
Definition print_task (task : Task) : M unit :=
  _ ← print [Lit (nl ++ "  - ID: ")%string; Val (id task)];
  _ ← print [Lit "    Description: "; Val (description task)];
  _ ← print [Lit "    Status: "; Val (status task)];
  _ ← print [Lit "    Created At: "; Val (createdAt task)];
  print [Lit "    Updated At: "; Val (updatedAt task)].

(** The loop of [list_tasks]; [wanted] is its [status] argument. *)
Fixpoint list_loop (l : list Task) (wanted : option string) : M unit :=
  match l with
  | [] => ret tt
  | task :: l' =>
      _ ← (if py_eq_opt_str (status task) wanted
           then print_task task
           else print_task task);
      list_loop l' wanted
  end.

Definition list_tasks (self : TaskManager) (status : option string) : M unit :=
  match tasks self with
  | [] => print [Lit "No tasks available."]
  | _ =>
      _ ← print [Lit "List of Tasks:"];
      list_loop (tasks self) status
  end.

End TaskManagerC.

(** ** The command line *)

(** A command line that [argparse] accepts up to the [choices] check: the
    optional [--filename] value, and the sub-command with its arguments. *)
Inductive subcommand : Type :=
| Create (description : string)
| Update (id new_description : string)
| Delete (id : string)
| Mark (id status : string)
| ListCmd (status : option string).

Record invocation : Type := mkInvocation {
  opt_filename : option string;
  cmd : option subcommand
}.

(** [argparse.Namespace]: attribute name to a [str] or [None]. *)
Definition Namespace : Type := list (string * option string).

Definition choices : list string := ["in-progress"; "todo"; "done"].

Definition in_choices (s : string) : bool :=
  existsb (String.eqb s) choices.

(** [parser.parse_args()], with the [dest] names of lines 144-171. *)
Definition parse_args (inv : invocation) : result Namespace :=
  let base := [("filename", Some (default "tasks.json" (opt_filename inv)))] in
  match cmd inv with
  | None => Ok (base ++ [("command", None)])
  | Some (Create d) =>
      Ok (base ++ [("command", Some "create"); ("description", Some d)])
  | Some (Update i d) =>
      Ok (base ++ [("command", Some "update"); ("id", Some i);
                   ("new_description", Some d)])
  | Some (Delete i) =>
      Ok (base ++ [("command", Some "delete"); ("id", Some i)])
  | Some (Mark i s) =>
      if in_choices s
      then Ok (base ++ [("command", Some "mark"); ("id", Some i);
                        ("status", Some s)])
      else Raise (SystemExit 2)
  | Some (ListCmd None) =>
      Ok (base ++ [("command", Some "list"); ("status", None)])
  | Some (ListCmd (Some s)) =>
      if in_choices s
      then Ok (base ++ [("command", Some "list"); ("status", Some s)])
      else Raise (SystemExit 2)
  end.

(** [args.name] *)
Fixpoint getattr (args : Namespace) (name : string) : M (option string) :=
  match args with
  | [] => raise (AttributeError name)
  | (n, v) :: args' => if String.eqb n name then ret v else getattr args' name
  end.

(** [case "name":] of the [match args.command] statement. *)
Definition case (command : option string) (name : string) : bool :=
  match command with
  | Some c => String.eqb c name
  | None => false
  end.

(** [main()].  [open] raises [TypeError] on a [None] file name. *)
Definition main (inv : invocation) : M unit :=
  args ← lift (parse_args inv);
  fn ← getattr args "filename";
  tm ← match fn with
       | Some f => TaskManagerC.__init__ f
       | None => raise TypeError
       end;
  command ← getattr args "command";
  if case command "create" then
    d ← getattr args "description";
    _ ← TaskManagerC.create_task tm (of_arg d);
    ret tt
  else if case command "update" then
    i ← getattr args "id";
    d ← getattr args "new_description";
    _ ← TaskManagerC.update_task tm i (of_arg d);
    ret tt
  else if case command "mark" then
    i ← getattr args "id";
    s ← getattr args "new_status";
    _ ← TaskManagerC.mark_task tm i (of_arg s);
    ret tt
  else if case command "list" then
    s ← getattr args "status";
    TaskManagerC.list_tasks tm s
  else
    print_help.

(** ** Sample environments *)

Definition sample_clock (n : nat) : string :=
  match n with
  | 0 => "2024-05-01 10:00:00"
  | 1 => "2024-05-01 10:00:01"
  | 2 => "2024-05-01 10:00:02"
  | _ => "2024-05-01 10:00:03"
  end.

Definition sample_uuid (n : nat) : string :=
  match n with
  | 0 => "00000000-0000-4000-8000-000000000001"
  | 1 => "00000000-0000-4000-8000-000000000002"
  | _ => "00000000-0000-4000-8000-000000000003"
  end.

Definition world_of (files : gmap string fcontent) : World :=
  mkWorld files sample_clock 0 sample_uuid 0 [].

Definition empty_world : World := world_of ∅.

(** A file whose only record lacks the field [description]. *)
Definition file_missing_field : pyval :=
  PList [PDict [("id", PStr "a"); ("status", PStr "todo");
                ("createdAt", PStr "2024-05-01 09:00:00");
                ("updatedAt", PStr "2024-05-01 09:00:00")]].

(** A file whose only record has a number for a description and a
    boolean for a status. *)
Definition file_wrong_type : pyval :=
  PList [PDict [("id", PStr "a"); ("description", PInt 42);
                ("status", PBool true);
                ("createdAt", PStr "2024-05-01 09:00:00");
                ("updatedAt", PStr "2024-05-01 09:00:00")]].

(** A file with one record whose status is outside the enumeration. *)
Definition file_odd_status : pyval :=
  PList [PDict [("id", PStr "a"); ("description", PStr "buy milk");
                ("status", PStr "archived");
                ("createdAt", PStr "2024-05-01 09:00:00");
                ("updatedAt", PStr "2024-05-01 09:00:00")]].

Definition task_a : Task :=
  mkTask (PStr "a") (PStr "buy milk") (PStr "todo")
         (PStr "2024-05-01 09:00:00") (PStr "2024-05-01 09:00:00").

Definition task_b : Task :=
  mkTask (PStr "b") (PStr "walk dog") (PStr "done")
         (PStr "2024-05-01 09:30:00") (PStr "2024-05-01 09:45:00").

(** A task last updated after every reading of [sample_clock]. *)
Definition task_future : Task :=
  mkTask (PStr "f") (PStr "file taxes") (PStr "todo")
         (PStr "2030-01-01 00:00:00") (PStr "2030-01-01 00:00:00").

Definition store_ab : TaskManager := mkTaskManager "tasks.json" [task_a; task_b].

Definition store_future : TaskManager := mkTaskManager "tasks.json" [task_future].

(** The single byte 0xE9 (the letter e with an acute accent in Latin-1),
    which is not valid UTF-8. *)
Definition latin1_bytes : string := String (ascii_of_nat 233) EmptyString.

(** A task whose id is the first identifier that [sample_uuid] yields. *)
Definition task_u : Task :=
  mkTask (PStr "00000000-0000-4000-8000-000000000001") (PStr "buy milk")
         (PStr "todo") (PStr "2024-05-01 09:00:00") (PStr "2024-05-01 09:00:00").

Definition store_u : TaskManager := mkTaskManager "tasks.json" [task_u].

(** The task that [create_task] builds in the world [w]. *)
Definition created (w : World) (description : pyval) : Task :=
  mkTask (PStr (uuid_src w (draws w))) description (PStr "todo")
         (PStr (clock w (ticks w))) (PStr (clock w (S (ticks w)))).

(** ** Predicates used in the statements *)

(** What [Task.__init__] guarantees of every task object: the three
    attributes it defaults are never [None]. *)
Definition task_wf (t : Task) : Prop :=
  id t ≠ PNone ∧ createdAt t ≠ PNone ∧ updatedAt t ≠ PNone.

(** The record [item] holds the five attributes of [t]. *)
Definition has_fields (item : pyval) (t : Task) : Prop :=
  subscript item "id" = Ok (id t) ∧
  subscript item "description" = Ok (description t) ∧
  subscript item "status" = Ok (status t) ∧
  subscript item "createdAt" = Ok (createdAt t) ∧
  subscript item "updatedAt" = Ok (updatedAt t).

Definition fields : list string :=
  ["id"; "description"; "status"; "createdAt"; "updatedAt"].

Definition has_key (item : pyval) (k : string) : bool :=
  match subscript item k with
  | Ok _ => true
  | Raise _ => false
  end.

(** [item] is a JSON object with all five fields. *)
Definition is_record (item : pyval) : bool :=
  forallb (has_key item) fields.

(** A value of the status enumeration. *)
Definition in_enum (v : pyval) : bool :=
  match v with
  | PStr s => in_choices s
  | _ => false
  end.

Definition status_ok (ts : list Task) : Prop :=
  Forall (fun t => in_enum (status t) = true) ts.

(** Every record of the file [fn] carries a status of the enumeration. *)
Definition file_status_ok (w : World) (fn : string) : Prop :=
  ∀ data items, fs w !! fn = Some (Document data) →
    py_iter data = Ok items →
    Forall (fun item => ∀ v, subscript item "status" = Ok v → in_enum v = true)
           items.

(** The mutating operations of the store, and runs of them. *)
Inductive op : Type :=
| OpCreate (description : pyval)
| OpUpdate (uuid : option string) (new_description : pyval)
| OpDelete (uuid : option string)
| OpMark (uuid : option string) (new_status : pyval).

Definition apply_op (o : op) (self : TaskManager) : M TaskManager :=
  match o with
  | OpCreate d => TaskManagerC.create_task self d
  | OpUpdate u d => TaskManagerC.update_task self u d
  | OpDelete u => TaskManagerC.delete_task self u
  | OpMark u s => TaskManagerC.mark_task self u s
  end.

Fixpoint run_ops (ops : list op) (self : TaskManager) : M TaskManager :=
  match ops with
  | [] => ret self
  | o :: ops' => self' ← apply_op o self; run_ops ops' self'
  end.

(** [Mark] is given a status of the enumeration. *)
Definition op_ok (o : op) : Prop :=
  match o with
  | OpMark _ s => in_enum s = true
  | _ => True
  end.

(** Order of two timestamps in the format [%Y-%m-%d %H:%M:%S], whose
    lexicographic order is the chronological one. *)
Definition time_le (a b : pyval) : Prop :=
  match a, b with
  | PStr x, PStr y => String.leb x y = true
  | _, _ => False
  end.

(** The world after printing one line. *)
Definition printed (w : World) (ps : list piece) : World :=
  mkWorld (fs w) (clock w) (ticks w) (uuid_src w) (draws w)
          (stdout w ++ [Line ps]).

Definition not_found (uuid : option string) : list piece :=
  [Lit "Task with id "; Val (of_arg uuid); Lit " not found."].

(** The lines [print_task] writes for one task. *)
Definition task_lines (task : Task) : list out :=
  [Line [Lit (nl ++ "  - ID: ")%string; Val (id task)];
   Line [Lit "    Description: "; Val (description task)];
   Line [Lit "    Status: "; Val (status task)];
   Line [Lit "    Created At: "; Val (createdAt task)];
   Line [Lit "    Updated At: "; Val (updatedAt task)]].

(** The world after one reading of the clock. *)
Definition tick (w : World) : World :=
  mkWorld (fs w) (clock w) (S (ticks w)) (uuid_src w) (draws w) (stdout w).

(** The world after one draw of an identifier. *)
Definition draw (w : World) : World :=
  mkWorld (fs w) (clock w) (ticks w) (uuid_src w) (S (draws w)) (stdout w).

(** The world after [self] is saved and one line is printed. *)
Definition after_save (w : World) (self : TaskManager) (ps : list piece) : World :=
  mkWorld (<[filename self := Document (PList (map TaskC.to_dict (tasks self)))]> (fs w))
          (clock w) (ticks w) (uuid_src w) (draws w) (stdout w ++ [Line ps]).

(** [self] with the element at position [i] replaced. *)
Definition with_task (self : TaskManager) (i : nat) (t : Task) : TaskManager :=
  mkTaskManager (filename self) (<[i := t]> (tasks self)).

(** The world after the lines [ls] are printed. *)
Definition emit (w : World) (ls : list out) : World :=
  mkWorld (fs w) (clock w) (ticks w) (uuid_src w) (draws w) (stdout w ++ ls).

(** A world whose backing file holds [task_a], and a run of operations. *)
Definition world_a : World :=
  world_of {["tasks.json" := Document (PList [TaskC.to_dict task_a])]}.

Definition sample_ops : list op :=
  [OpCreate (PStr "walk dog"); OpMark (Some "a") (PStr "done");
   OpUpdate (Some "a") (PStr "buy oat milk"); OpDelete (Some "zzz")].

(** The backing file holds the serialised in-memory collection. *)
Definition mirror (self : TaskManager) (w : World) : Prop :=
  fs w !! filename self
  = Some (Document (PList (map TaskC.to_dict (tasks self)))).

(** The ids of a collection, in stored order. *)
Definition ids (ts : list Task) : list pyval := id <$> ts.

(** The identifiers that [uuid4] has yet to draw are pairwise distinct and
    differ from every id of the collection. *)
Definition fresh_source (self : TaskManager) (w : World) : Prop :=
  (∀ n m, (draws w ≤ n)%nat → (draws w ≤ m)%nat →
          uuid_src w n = uuid_src w m → n = m) ∧
  (∀ v n, v ∈ ids (tasks self) → (draws w ≤ n)%nat → v ≠ PStr (uuid_src w n)).

(** An identifier source that never repeats: [n] times the letter i. *)
Fixpoint tally (n : nat) : string :=
  match n with
  | 0 => EmptyString
  | S n => String "i" (tally n)
  end.

Definition world_tally : World := mkWorld ∅ sample_clock 0 tally 0 [].

(** A JSON object without members or an empty JSON string. *)
Definition is_empty_container (v : pyval) : bool :=
  match v with
  | PDict [] => true
  | PStr EmptyString => true
  | _ => false
  end.

Definition is_array (v : pyval) : bool :=
  match v with
  | PList _ => true
  | _ => false
  end.

(** The first of the five fields that the record [item] lacks. *)
Definition first_missing (item : pyval) : option string :=
  List.find (fun k => negb (has_key item k)) fields.

(** The lines [list_tasks] prints for a collection. *)
Definition listing (ts : list Task) : list out :=
  match ts with
  | [] => [Line [Lit "No tasks available."]]
  | _ => Line [Lit "List of Tasks:"] :: flat_map task_lines ts
  end.

(** The commands whose branch of [main] reaches an operation that saves. *)
Definition saves (c : option subcommand) : bool :=
  match c with
  | Some (Create _) | Some (Update _ _) => true
  | _ => false
  end.

(** Update and Mark, the operations that edit a task in place. *)
Definition is_edit (o : op) : bool :=
  match o with
  | OpUpdate _ _ | OpMark _ _ => true
  | _ => false
  end.

(** * Properties *)

Ltac unfold_monad :=
  unfold mbind, M_bind, mret, M_ret, fmap, M_fmap, bind, ret, raise, lift in *.

(** ** Python equality *)

Lemma py_eq_opt_str_true v o : py_eq_opt_str v o = true ↔ v = of_arg o.
Proof.
  destruct o as [s|]; simpl.
  - destruct v; simpl; try (split; [discriminate | congruence]).
    rewrite String.eqb_eq. split; congruence.
  - destruct v; split; try discriminate; done.
Qed.

Lemma py_eq_opt_str_false v o : py_eq_opt_str v o = false ↔ v ≠ of_arg o.
Proof.
  rewrite <- py_eq_opt_str_true. destruct (py_eq_opt_str v o); naive_solver.
Qed.

(** ** Deserialisation *)

Lemma init_given d i s c u w :
  i ≠ PNone → c ≠ PNone → u ≠ PNone →
  TaskC.__init__ d i s c u w = (Ok (mkTask i d s c u), w).
Proof.
  intros Hi Hc Hu. unfold TaskC.__init__. unfold_monad.
  destruct i, c, u; try done.
Qed.

Lemma init_wf d i s c u w t w' :
  TaskC.__init__ d i s c u w = (Ok t, w') → task_wf t.
Proof.
  unfold TaskC.__init__. unfold_monad. unfold uuid4, now.
  destruct i, c, u; simpl; intros [= <- _]; repeat split; done.
Qed.

Lemma init_total d i s c u w :
  ∃ t w', TaskC.__init__ d i s c u w = (Ok t, w') ∧
          description t = d ∧ status t = s ∧ fs w' = fs w ∧ stdout w' = stdout w.
Proof.
  unfold TaskC.__init__. unfold_monad. unfold uuid4, now.
  destruct i, c, u; simpl; eauto 10.
Qed.

Lemma from_dict_has_fields item t w :
  has_fields item t → task_wf t → TaskC.from_dict item w = (Ok t, w).
Proof.
  intros (Hi & Hd & Hs & Hc & Hu) (Wi & Wc & Wu).
  unfold TaskC.from_dict. unfold_monad. rewrite Hi, Hd, Hs, Hc, Hu.
  rewrite init_given by done. by destruct t.
Qed.

Lemma to_dict_has_fields t : has_fields (TaskC.to_dict t) t.
Proof. by repeat split. Qed.

Lemma mapM_from_dict items ts w :
  Forall2 has_fields items ts → Forall task_wf ts →
  mapM TaskC.from_dict items w = (Ok ts, w).
Proof.
  intros H. revert w. induction H as [|item t items ts Hf _ IH]; intros w Hwf.
  - done.
  - apply Forall_cons in Hwf as [Ht Hts]. simpl. unfold_monad.
    rewrite (from_dict_has_fields item t w) by done. by rewrite IH.
Qed.

Lemma from_dict_record item w :
  is_record item = true →
  ∃ t w', TaskC.from_dict item w = (Ok t, w') ∧ fs w' = fs w ∧ stdout w' = stdout w ∧
          subscript item "description" = Ok (description t) ∧
          subscript item "status" = Ok (status t).
Proof.
  unfold is_record, fields, has_key. simpl. intros H.
  unfold TaskC.from_dict. unfold_monad.
  destruct (subscript item "id") as [i|]; [|done].
  destruct (subscript item "description") as [d|]; [|done].
  destruct (subscript item "status") as [s|]; [|done].
  destruct (subscript item "createdAt") as [c|]; [|done].
  destruct (subscript item "updatedAt") as [u|]; [|done].
  destruct (init_total d i s c u w) as (t & w' & -> & <- & <- & ? & ?).
  eauto 10.
Qed.

Lemma from_dict_not_record item w :
  is_record item = false →
  ∃ e, TaskC.from_dict item w = (Raise e, w) ∧
       (e = TypeError ∨ ∃ k, e = KeyError k).
Proof.
  unfold is_record, fields, has_key, TaskC.from_dict, subscript. unfold_monad.
  destruct item as [| | | | |d]; simpl; eauto.
  destruct (dict_get "id" d); [|eauto].
  destruct (dict_get "description" d); [|eauto].
  destruct (dict_get "status" d); [|eauto].
  destruct (dict_get "createdAt" d); [|eauto].
  destruct (dict_get "updatedAt" d); [done|eauto].
Qed.

Lemma mapM_from_dict_raises items w :
  existsb (fun item => negb (is_record item)) items = true →
  ∃ e w', mapM TaskC.from_dict items w = (Raise e, w') ∧
          (e = TypeError ∨ ∃ k, e = KeyError k) ∧ fs w' = fs w.
Proof.
  revert w. induction items as [|item items IH]; intros w; simpl; [done|].
  destruct (is_record item) eqn:Hrec; simpl.
  - intros H. destruct (from_dict_record item w Hrec) as (t & w1 & Ht & Hfs & _).
    destruct (IH w1 H) as (e & w' & Hm & He & Hfs').
    exists e, w'. unfold_monad. rewrite Ht, Hm. repeat split; [done|congruence].
  - intros _. destruct (from_dict_not_record item w Hrec) as (e & He & Hk).
    exists e, w. unfold_monad. by rewrite He.
Qed.

(** ** Load *)

Section Load.
Variables (fn : string) (w : World).

Lemma load_missing :
  fs w !! fn = None → TaskManagerC._load_tasks fn w = (Ok [], w).
Proof.
  intros H. unfold TaskManagerC._load_tasks, try_except, json_load.
  unfold_monad. by rewrite H.
Qed.

Lemma load_undecodable raw :
  fs w !! fn = Some (Undecodable raw) →
  TaskManagerC._load_tasks fn w = (Ok [], w).
Proof.
  intros H. unfold TaskManagerC._load_tasks, try_except, json_load.
  unfold_monad. by rewrite H.
Qed.

Lemma load_not_utf8 bytes :
  fs w !! fn = Some (NotUtf8 bytes) →
  TaskManagerC._load_tasks fn w = (Raise UnicodeDecodeError, w) ∧
  TaskManagerC.__init__ fn w = (Raise UnicodeDecodeError, w).
Proof.
  intros H.
  assert (Hl : TaskManagerC._load_tasks fn w = (Raise UnicodeDecodeError, w)).
  { unfold TaskManagerC._load_tasks, try_except, json_load.
    unfold_monad. by rewrite H. }
  split; [done|]. unfold TaskManagerC.__init__. unfold_monad. by rewrite Hl.
Qed.

Lemma load_records items ts :
  fs w !! fn = Some (Document (PList items)) →
  Forall2 has_fields items ts → Forall task_wf ts →
  TaskManagerC._load_tasks fn w = (Ok ts, w).
Proof.
  intros H Hf Hwf. pose proof (mapM_from_dict items ts w Hf Hwf) as Hm.
  unfold TaskManagerC._load_tasks, try_except, json_load.
  unfold_monad. rewrite H. simpl. by rewrite Hm.
Qed.

Lemma load_bad_record items :
  fs w !! fn = Some (Document (PList items)) →
  existsb (fun item => negb (is_record item)) items = true →
  ∃ e w', TaskManagerC._load_tasks fn w = (Raise e, w') ∧
          (e = TypeError ∨ ∃ k, e = KeyError k) ∧ fs w' = fs w.
Proof.
  intros H Hbad.
  destruct (mapM_from_dict_raises items w Hbad) as (e & w' & Hm & He & Hfs).
  exists e, w'. unfold TaskManagerC._load_tasks, try_except, json_load.
  unfold_monad. rewrite H. simpl. rewrite Hm.
  destruct He as [->|[k ->]]; simpl; eauto 10.
Qed.

End Load.

Lemma from_dict_wf item w t w' :
  TaskC.from_dict item w = (Ok t, w') → task_wf t.
Proof.
  unfold TaskC.from_dict. unfold_monad.
  destruct (subscript item "id") as [i|]; [|done].
  destruct (subscript item "description") as [d|]; [|done].
  destruct (subscript item "status") as [s|]; [|done].
  destruct (subscript item "createdAt") as [c|]; [|done].
  destruct (subscript item "updatedAt") as [u|]; [|done].
  apply init_wf.
Qed.

Lemma mapM_from_dict_wf items w ts w' :
  mapM TaskC.from_dict items w = (Ok ts, w') → Forall task_wf ts.
Proof.
  revert w ts w'. induction items as [|item items IH]; intros w ts w'; simpl.
  - unfold_monad. by intros [= <- _].
  - unfold_monad.
    destruct (TaskC.from_dict item w) as [[t|e] w1] eqn:Ht; [|done].
    destruct (mapM TaskC.from_dict items w1) as [[ts'|e] w2] eqn:Hm; [|done].
    intros [= <- _]. constructor; [by eapply from_dict_wf | by eapply IH].
Qed.

(** Every collection that Load produces consists of well-formed tasks. *)
Lemma load_wf fn w ts w' :
  TaskManagerC._load_tasks fn w = (Ok ts, w') → Forall task_wf ts.
Proof.
  unfold TaskManagerC._load_tasks, try_except, json_load.
  pose proof (mapM_from_dict_wf) as Hwf. unfold_monad.
  destruct (fs w !! fn) as [[bytes|raw|data]|]; simpl.
  - done.
  - intros [= <- _]. constructor.
  - destruct (py_iter data) as [items|e]; simpl;
      [|destruct e; try done; intros [= <- _]; constructor].
    destruct (mapM TaskC.from_dict items w) as [[ts'|e] w1] eqn:Hm.
    + intros [= <- _]. by eapply Hwf.
    + destruct e; try done; intros [= <- _]; constructor.
  - intros [= <- _]. constructor.
Qed.

(** *** C3 *)

(** C3, counterexample: a JSON array whose record lacks a field makes Load
    raise [KeyError]; a record with wrong-typed fields is loaded as it is,
    so the collection is not empty; a file whose bytes are not valid UTF-8
    makes Load raise [UnicodeDecodeError]. *)
Lemma load_malformed_counterexample :
  fst (TaskManagerC._load_tasks "tasks.json"
         (world_of {["tasks.json" := Document file_missing_field]}))
  = Raise (KeyError "description") ∧
  fst (TaskManagerC._load_tasks "tasks.json"
         (world_of {["tasks.json" := Document file_wrong_type]}))
  = Ok [mkTask (PStr "a") (PInt 42) (PBool true)
               (PStr "2024-05-01 09:00:00") (PStr "2024-05-01 09:00:00")] ∧
  fst (TaskManagerC._load_tasks "tasks.json"
         (world_of {["tasks.json" := NotUtf8 latin1_bytes]}))
  = Raise UnicodeDecodeError.
Proof. split; [|split]; vm_compute; reflexivity. Qed.

(** C3, amended: Load yields the empty collection without raising when the
    file is missing or holds UTF-8 text that is not valid JSON (the read
    raises [FileNotFoundError] or [JSONDecodeError], the two exceptions
    that [_load_tasks] catches).  On a JSON array whose elements
    all carry the five fields (id and timestamps not null) it yields one
    task per element with the stored values, whatever their types: a
    wrong-typed field is kept, not rejected. *)
Theorem load_cases (fn : string) (w : World) :
  (fs w !! fn = None ∨ (∃ raw, fs w !! fn = Some (Undecodable raw)) →
   TaskManagerC._load_tasks fn w = (Ok [], w)) ∧
  (∀ items ts,
     fs w !! fn = Some (Document (PList items)) →
     Forall2 has_fields items ts → Forall task_wf ts →
     TaskManagerC._load_tasks fn w = (Ok ts, w)).
Proof.
  split.
  - intros [H|[raw H]]; [by apply load_missing | by eapply load_undecodable].
  - apply load_records.
Qed.

Lemma load_cases_witness :
  TaskManagerC._load_tasks "tasks.json" empty_world = (Ok [], empty_world) ∧
  TaskManagerC._load_tasks "tasks.json"
    (world_of {["tasks.json" := Document file_wrong_type]})
  = (Ok [mkTask (PStr "a") (PInt 42) (PBool true)
                (PStr "2024-05-01 09:00:00") (PStr "2024-05-01 09:00:00")],
     world_of {["tasks.json" := Document file_wrong_type]}).
Proof.
  split.
  - apply (proj1 (load_cases "tasks.json" empty_world)). left. reflexivity.
  - apply (proj2 (load_cases "tasks.json"
             (world_of {["tasks.json" := Document file_wrong_type]}))
             [PDict [("id", PStr "a"); ("description", PInt 42);
                     ("status", PBool true);
                     ("createdAt", PStr "2024-05-01 09:00:00");
                     ("updatedAt", PStr "2024-05-01 09:00:00")]]).
    + reflexivity.
    + constructor; [|constructor]. repeat split; reflexivity.
    + constructor; [|constructor]. repeat split; discriminate.
Defined.

(** ** Save and Load *)

(** *** C4 *)

(** C4: saving a collection and loading it again gives back the same
    tasks, with the same five attributes, in the same order.  The tasks are
    those [Task.__init__] can build ([task_wf], which [load_wf] and
    [run_ops_wf] show of every collection the store holds). *)
Theorem save_load_roundtrip (self : TaskManager) (w : World) :
  Forall task_wf (tasks self) →
  ∃ w', TaskManagerC._save_tasks self w = (Ok tt, w') ∧
        TaskManagerC._load_tasks (filename self) w' = (Ok (tasks self), w').
Proof.
  intros Hwf. eexists. split; [reflexivity|].
  apply load_records with (items := map TaskC.to_dict (tasks self)).
  - simpl. apply lookup_insert_eq.
  - apply Forall2_fmap_l, Forall_Forall2_diag, Forall_forall.
    intros t _. apply to_dict_has_fields.
  - done.
Qed.

Lemma save_load_roundtrip_witness :
  Forall task_wf (tasks store_ab) ∧
  ∃ w', TaskManagerC._save_tasks store_ab empty_world = (Ok tt, w') ∧
        TaskManagerC._load_tasks (filename store_ab) w' = (Ok (tasks store_ab), w').
Proof.
  assert (H : Forall task_wf (tasks store_ab)).
  { repeat constructor; discriminate. }
  split; [exact H | exact (save_load_roundtrip store_ab empty_world H)].
Defined.

(** ** Finding a task *)

Lemma find_from_None k uuid l :
  TaskManagerC.find_from k uuid l = None ↔ ∀ t, t ∈ l → id t ≠ of_arg uuid.
Proof.
  revert k. induction l as [|t l IH]; intros k; simpl.
  - split; [|done]. intros _ t Ht. by apply not_elem_of_nil in Ht.
  - destruct (py_eq_opt_str (id t) uuid) eqn:E.
    + apply py_eq_opt_str_true in E. split; [done|].
      intros H. destruct (H t); [left | done].
    + apply py_eq_opt_str_false in E. rewrite IH. split.
      * intros H t' [->|Ht']%elem_of_cons; auto.
      * intros H t' Ht'. apply H. by right.
Qed.

Lemma find_from_Some k uuid l i t :
  TaskManagerC.find_from k uuid l = Some (i, t) →
  ∃ j, i = k + j ∧ l !! j = Some t ∧ id t = of_arg uuid ∧
       ∀ j' t', j' < j → l !! j' = Some t' → id t' ≠ of_arg uuid.
Proof.
  revert k. induction l as [|t0 l IH]; intros k; simpl; [done|].
  destruct (py_eq_opt_str (id t0) uuid) eqn:E.
  - intros [= <- <-]. apply py_eq_opt_str_true in E.
    exists 0. repeat split; [lia | done | intros; lia].
  - intros H. apply py_eq_opt_str_false in E.
    destruct (IH _ H) as (j & -> & Hj & Hid & Hbefore).
    exists (S j). repeat split; [lia | done | done |].
    intros [|j'] t' Hlt; simpl; [by intros [= <-] | apply Hbefore; lia].
Qed.

Lemma find_from_present k uuid l :
  (∃ t, t ∈ l ∧ id t = of_arg uuid) →
  ∃ i t, TaskManagerC.find_from k uuid l = Some (i, t).
Proof.
  intros (t & Ht & Hid).
  destruct (TaskManagerC.find_from k uuid l) as [[i t']|] eqn:E; [eauto|].
  rewrite find_from_None in E. by destruct (E t Ht).
Qed.

(** Replacing the found task by one with the same id leaves it the one
    that is found. *)
Lemma find_from_insert k uuid l j t t' :
  TaskManagerC.find_from k uuid l = Some (k + j, t) →
  id t' = id t →
  TaskManagerC.find_from k uuid (<[j := t']> l) = Some (k + j, t').
Proof.
  revert k j. induction l as [|t0 l IH]; intros k j; simpl; [done|].
  destruct (py_eq_opt_str (id t0) uuid) eqn:E.
  - intros [= Hk <-] Hid. assert (j = 0) as -> by lia. simpl.
    by rewrite Hid, E, Nat.add_0_r.
  - intros H Hid. destruct j as [|j].
    + apply find_from_Some in H as (j & ? & _). lia.
    + simpl. rewrite E. replace (k + S j) with (S k + j) in * by lia.
      by apply IH.
Qed.

(** ** The operations, as equations *)

Section Operations.
Variables (self : TaskManager) (w : World).

Lemma create_task_eq d :
  let self' := mkTaskManager (filename self) (tasks self ++ [created w d]) in
  TaskManagerC.create_task self d w =
  (Ok self',
   after_save (tick (tick (draw w))) self'
     [Lit "Task added successfully: "; Val (id (created w d))]).
Proof. reflexivity. Qed.

Lemma update_task_found uuid d i t :
  TaskManagerC._find_task self uuid = Some (i, t) →
  let self' := with_task self i
                 (mkTask (id t) d (status t) (createdAt t)
                         (PStr (clock w (ticks w)))) in
  TaskManagerC.update_task self uuid d w =
  (Ok self',
   after_save (tick w) self'
     [Lit "Task with id "; Val (of_arg uuid); Lit " was successfully updated"]).
Proof. intros H. unfold TaskManagerC.update_task. by rewrite H. Qed.

Lemma mark_task_found uuid s i t :
  TaskManagerC._find_task self uuid = Some (i, t) →
  let self' := with_task self i
                 (mkTask (id t) (description t) s (createdAt t)
                         (PStr (clock w (ticks w)))) in
  TaskManagerC.mark_task self uuid s w =
  (Ok self',
   after_save (tick w) self'
     [Lit "Task with id "; Val (of_arg uuid); Lit " marked as "; Val s; Lit "."]).
Proof. intros H. unfold TaskManagerC.mark_task. by rewrite H. Qed.

Lemma delete_task_found uuid i t :
  TaskManagerC._find_task self uuid = Some (i, t) →
  let self' := mkTaskManager (filename self) (delete i (tasks self)) in
  TaskManagerC.delete_task self uuid w =
  (Ok self',
   after_save w self'
     [Lit "Task with id "; Val (of_arg uuid); Lit " deleted successfully."]).
Proof. intros H. unfold TaskManagerC.delete_task. by rewrite H. Qed.

Lemma update_task_missing uuid d :
  TaskManagerC._find_task self uuid = None →
  TaskManagerC.update_task self uuid d w = (Ok self, printed w (not_found uuid)).
Proof. intros H. unfold TaskManagerC.update_task. by rewrite H. Qed.

Lemma mark_task_missing uuid s :
  TaskManagerC._find_task self uuid = None →
  TaskManagerC.mark_task self uuid s w = (Ok self, printed w (not_found uuid)).
Proof. intros H. unfold TaskManagerC.mark_task. by rewrite H. Qed.

Lemma delete_task_missing uuid :
  TaskManagerC._find_task self uuid = None →
  TaskManagerC.delete_task self uuid w = (Ok self, printed w (not_found uuid)).
Proof. intros H. unfold TaskManagerC.delete_task. by rewrite H. Qed.

End Operations.

(** ** Create *)

(** *** C5 *)

(** C5, counterexample: [Task.__init__] reads the clock once for
    [createdAt] and once more for [updatedAt]; when the clock advances
    between the two readings the new task has [createdAt ≠ updatedAt].
    And the id is whatever [uuid4] returns: when that is the id of a task
    already in the collection, the new task has the same id. *)
Lemma create_task_counterexample :
  (∃ self' t,
     fst (TaskManagerC.create_task (mkTaskManager "tasks.json" [])
            (PStr "buy milk") empty_world) = Ok self' ∧
     tasks self' = [t] ∧
     createdAt t = PStr "2024-05-01 10:00:00" ∧
     updatedAt t = PStr "2024-05-01 10:00:01" ∧
     createdAt t ≠ updatedAt t) ∧
  (∃ self' t,
     fst (TaskManagerC.create_task store_u (PStr "walk dog") empty_world)
     = Ok self' ∧
     tasks self' = [task_u; t] ∧
     id t = id task_u).
Proof.
  split.
  - eexists _, _. split; [reflexivity|]. split; [reflexivity|].
    split; [reflexivity|]. split; [reflexivity|]. discriminate.
  - eexists _, _. split; [reflexivity|]. split; reflexivity.
Qed.

(** C5, amended: for every description D and every store, Create(D)
    succeeds and appends one task to the end of the collection, leaving
    the tasks before it unchanged.  The new task has description D, status
    todo, as id the string that [uuid4] returns, and as createdAt and
    updatedAt two successive readings of the clock.  Its id differs from
    every id of the collection exactly when the string drawn is not among
    them, and its createdAt equals its updatedAt exactly when the clock
    did not advance between the two readings. *)
Theorem create_task_appends (self : TaskManager) (d : pyval) (w : World) :
  ∃ t self' w',
    TaskManagerC.create_task self d w = (Ok self', w') ∧
    tasks self' = tasks self ++ [t] ∧
    id t = PStr (uuid_src w (draws w)) ∧
    description t = d ∧
    status t = PStr "todo" ∧
    createdAt t = PStr (clock w (ticks w)) ∧
    updatedAt t = PStr (clock w (S (ticks w))) ∧
    ((∀ t', t' ∈ tasks self → id t' ≠ id t) ↔
     PStr (uuid_src w (draws w)) ∉ ids (tasks self)) ∧
    (createdAt t = updatedAt t ↔ clock w (ticks w) = clock w (S (ticks w))).
Proof.
  exists (created w d). eexists _, _.
  split; [apply create_task_eq|]. simpl.
  split; [done|]. split; [done|]. split; [done|]. split; [done|].
  split; [done|]. split; [done|]. split.
  - unfold ids. split.
    + intros H [t' [Hid Ht']]%list_elem_of_fmap. by apply (H t').
    + intros H t' Ht' Hid. apply H, list_elem_of_fmap. by exists t'.
  - split; [by intros [= ->] | by intros ->].
Qed.

Lemma create_task_appends_witness :
  ∃ t self' w',
    TaskManagerC.create_task store_ab (PStr "buy milk") empty_world = (Ok self', w') ∧
    tasks self' = tasks store_ab ++ [t] ∧
    id t = PStr (uuid_src empty_world (draws empty_world)) ∧
    description t = PStr "buy milk" ∧
    status t = PStr "todo" ∧
    createdAt t = PStr (clock empty_world (ticks empty_world)) ∧
    updatedAt t = PStr (clock empty_world (S (ticks empty_world))) ∧
    ((∀ t', t' ∈ tasks store_ab → id t' ≠ id t) ↔
     PStr (uuid_src empty_world (draws empty_world)) ∉ ids (tasks store_ab)) ∧
    (createdAt t = updatedAt t ↔
     clock empty_world (ticks empty_world)
     = clock empty_world (S (ticks empty_world))).
Proof.
  exact (create_task_appends store_ab (PStr "buy milk") empty_world).
Defined.

(** *** C9 *)

(** C9, counterexample: a backing file whose bytes are not valid UTF-8
    does not hold valid structured data, yet constructing the store raises
    [UnicodeDecodeError], which [_load_tasks] does not catch; no store
    comes to exist on which Create could follow. *)
Lemma init_not_utf8_raises :
  TaskManagerC.__init__ "tasks.json"
    (world_of {["tasks.json" := NotUtf8 latin1_bytes]})
  = (Raise UnicodeDecodeError,
     world_of {["tasks.json" := NotUtf8 latin1_bytes]}).
Proof. vm_compute. reflexivity. Qed.

(** C9, amended: when the backing file is missing or holds UTF-8 text that
    is not valid JSON, constructing the store raises nothing and gives an
    empty collection, and a Create that follows leaves a file that holds
    exactly the one new task. *)
Theorem load_absent_then_create (fn : string) (w : World) (d : pyval) :
  fs w !! fn = None ∨ (∃ raw, fs w !! fn = Some (Undecodable raw)) →
  ∃ tm t tm' w',
    TaskManagerC.__init__ fn w = (Ok tm, w) ∧
    tasks tm = [] ∧
    TaskManagerC.create_task tm d w = (Ok tm', w') ∧
    tasks tm' = [t] ∧
    description t = d ∧
    fs w' !! fn = Some (Document (PList [TaskC.to_dict t])).
Proof.
  intros H. exists (mkTaskManager fn []), (created w d). eexists _, _.
  split.
  { unfold TaskManagerC.__init__. unfold_monad.
    destruct H as [H|[raw H]];
      [rewrite load_missing by done | rewrite (load_undecodable _ _ raw) by done];
      done. }
  split; [done|]. split; [apply create_task_eq|].
  split; [done|]. split; [done|]. simpl. apply lookup_insert_eq.
Qed.

Lemma load_absent_then_create_witness :
  ∃ tm t tm' w',
    TaskManagerC.__init__ "tasks.json" empty_world = (Ok tm, empty_world) ∧
    tasks tm = [] ∧
    TaskManagerC.create_task tm (PStr "buy milk") empty_world = (Ok tm', w') ∧
    tasks tm' = [t] ∧
    description t = PStr "buy milk" ∧
    fs w' !! "tasks.json" = Some (Document (PList [TaskC.to_dict t])).
Proof.
  apply (load_absent_then_create "tasks.json" empty_world (PStr "buy milk")).
  left. reflexivity.
Defined.

(** ** Operations on an id that is absent *)

(** *** C7 *)

(** C7: when no task has the given id, Delete, Update and Mark each print
    the not-found message and return normally; the collection and the file
    system are what they were. *)
Theorem absent_id_is_noop (self : TaskManager) (uuid : option string)
        (d s : pyval) (w : World) :
  (∀ t, t ∈ tasks self → id t ≠ of_arg uuid) →
  TaskManagerC.delete_task self uuid w = (Ok self, printed w (not_found uuid)) ∧
  TaskManagerC.update_task self uuid d w = (Ok self, printed w (not_found uuid)) ∧
  TaskManagerC.mark_task self uuid s w = (Ok self, printed w (not_found uuid)) ∧
  fs (printed w (not_found uuid)) = fs w ∧
  stdout (printed w (not_found uuid)) = stdout w ++ [Line (not_found uuid)].
Proof.
  intros H. apply (find_from_None 0) in H.
  split; [by apply delete_task_missing|].
  split; [by apply update_task_missing|].
  split; [by apply mark_task_missing|]. done.
Qed.

Lemma absent_id_is_noop_witness :
  TaskManagerC.delete_task store_ab (Some "zzz") empty_world
  = (Ok store_ab, printed empty_world (not_found (Some "zzz"))) ∧
  TaskManagerC.update_task store_ab (Some "zzz") (PStr "x") empty_world
  = (Ok store_ab, printed empty_world (not_found (Some "zzz"))) ∧
  TaskManagerC.mark_task store_ab (Some "zzz") (PStr "done") empty_world
  = (Ok store_ab, printed empty_world (not_found (Some "zzz"))) ∧
  fs (printed empty_world (not_found (Some "zzz"))) = fs empty_world ∧
  stdout (printed empty_world (not_found (Some "zzz")))
  = stdout empty_world ++ [Line (not_found (Some "zzz"))].
Proof.
  apply (absent_id_is_noop store_ab (Some "zzz") (PStr "x") (PStr "done") empty_world).
  intros t Ht. unfold store_ab in Ht. simpl in Ht.
  apply elem_of_cons in Ht as [->|Ht]; [discriminate|].
  apply elem_of_cons in Ht as [->|Ht]; [discriminate|].
  by apply not_elem_of_nil in Ht.
Defined.

(** ** Update *)

(** *** C8 *)

(** C8: when some task has the given id, Update succeeds and replaces, at
    the position of the first such task, its description by the new one
    and its updatedAt by the clock reading; that task keeps its id, status
    and createdAt, and every other position of the collection holds the
    task it held before. *)
Theorem update_task_frame (self : TaskManager) (uuid : option string)
        (d : pyval) (w : World) :
  (∃ t, t ∈ tasks self ∧ id t = of_arg uuid) →
  ∃ i t t' self' w',
    TaskManagerC.update_task self uuid d w = (Ok self', w') ∧
    tasks self !! i = Some t ∧ id t = of_arg uuid ∧
    (∀ j t0, j < i → tasks self !! j = Some t0 → id t0 ≠ of_arg uuid) ∧
    tasks self' !! i = Some t' ∧
    description t' = d ∧ updatedAt t' = PStr (clock w (ticks w)) ∧
    id t' = id t ∧ status t' = status t ∧ createdAt t' = createdAt t ∧
    (∀ j, j ≠ i → tasks self' !! j = tasks self !! j) ∧
    length (tasks self') = length (tasks self) ∧
    filename self' = filename self.
Proof.
  intros Hin. destruct (find_from_present 0 uuid _ Hin) as (i & t & Hfind).
  pose proof (update_task_found self w uuid d i t Hfind) as Hupd.
  apply find_from_Some in Hfind as (j & -> & Hj & Hid & Hbefore). simpl in *.
  exists j, t. eexists _, _, _. split; [exact Hupd|]. simpl.
  split; [done|]. split; [done|]. split; [done|].
  split; [apply list_lookup_insert_eq; by eapply lookup_lt_Some|].
  repeat split; try done.
  - intros j' Hne. by apply list_lookup_insert_ne.
  - apply length_insert.
Qed.

Lemma update_task_frame_witness :
  ∃ i t t' self' w',
    TaskManagerC.update_task store_ab (Some "b") (PStr "walk cat") empty_world
    = (Ok self', w') ∧
    tasks store_ab !! i = Some t ∧ id t = of_arg (Some "b") ∧
    (∀ j t0, j < i → tasks store_ab !! j = Some t0 → id t0 ≠ of_arg (Some "b")) ∧
    tasks self' !! i = Some t' ∧
    description t' = PStr "walk cat" ∧
    updatedAt t' = PStr (clock empty_world (ticks empty_world)) ∧
    id t' = id t ∧ status t' = status t ∧ createdAt t' = createdAt t ∧
    (∀ j, j ≠ i → tasks self' !! j = tasks store_ab !! j) ∧
    length (tasks self') = length (tasks store_ab) ∧
    filename self' = filename store_ab.
Proof.
  apply (update_task_frame store_ab (Some "b") (PStr "walk cat") empty_world).
  exists task_b. split; [|reflexivity].
  unfold store_ab. simpl. apply elem_of_cons. right. apply elem_of_cons. left.
  reflexivity.
Defined.

(** ** Mark *)

(** *** C10 *)

(** C10, counterexample: a task whose stored updatedAt lies after the clock
    reading gets an earlier updatedAt when it is marked. *)
Lemma mark_task_time_goes_back :
  ∃ self' w' t',
    TaskManagerC.mark_task store_future (Some "f") (PStr "done") empty_world
    = (Ok self', w') ∧
    tasks self' = [t'] ∧
    updatedAt task_future = PStr "2030-01-01 00:00:00" ∧
    updatedAt t' = PStr "2024-05-01 10:00:00" ∧
    ¬ time_le (updatedAt task_future) (updatedAt t').
Proof.
  eexists _, _, _.
  split; [apply (mark_task_found store_future empty_world (Some "f")
                   (PStr "done") 0 task_future); reflexivity|].
  split; [reflexivity|]. split; [reflexivity|]. split; [reflexivity|].
  simpl. vm_compute. discriminate.
Qed.

(** C10, amended: when some task has the given id, two Mark calls in a row
    with the same status both succeed and leave the task's status equal to
    that status; each call sets updatedAt to the clock reading of that
    call.  The first new value is not earlier than the previous one when
    the clock reading is not earlier than the stored value, and the second
    is not earlier than the first when the clock did not go backwards
    between the calls. *)
Theorem mark_task_twice (self : TaskManager) (uuid : option string)
        (s : pyval) (w : World) :
  (∃ t, t ∈ tasks self ∧ id t = of_arg uuid) →
  ∃ i t t1 t2 self1 w1 self2 w2,
    tasks self !! i = Some t ∧ id t = of_arg uuid ∧
    TaskManagerC.mark_task self uuid s w = (Ok self1, w1) ∧
    TaskManagerC.mark_task self1 uuid s w1 = (Ok self2, w2) ∧
    tasks self1 !! i = Some t1 ∧ tasks self2 !! i = Some t2 ∧
    status t1 = s ∧ status t2 = s ∧
    updatedAt t1 = PStr (clock w (ticks w)) ∧
    updatedAt t2 = PStr (clock w (S (ticks w))) ∧
    (time_le (updatedAt t) (PStr (clock w (ticks w))) →
     time_le (updatedAt t) (updatedAt t1)) ∧
    (String.leb (clock w (ticks w)) (clock w (S (ticks w))) = true →
     time_le (updatedAt t1) (updatedAt t2)).
Proof.
  intros Hin. destruct (find_from_present 0 uuid _ Hin) as (i & t & Hfind).
  pose proof (mark_task_found self w uuid s i t Hfind) as Hm1.
  set (t1 := mkTask (id t) (description t) s (createdAt t)
                    (PStr (clock w (ticks w)))) in *.
  assert (Hfind1 : TaskManagerC._find_task (with_task self i t1) uuid = Some (i, t1)).
  { apply find_from_Some in Hfind as Hj. destruct Hj as (j & -> & _).
    unfold TaskManagerC._find_task, with_task. simpl.
    by apply (find_from_insert 0 uuid (tasks self) j t t1). }
  pose proof (mark_task_found (with_task self i t1)
                (after_save (tick w) (with_task self i t1)
                   [Lit "Task with id "; Val (of_arg uuid); Lit " marked as ";
                    Val s; Lit "."])
                uuid s i t1 Hfind1) as Hm2.
  apply find_from_Some in Hfind as (j & -> & Hj & Hid & _). simpl in *.
  pose proof (lookup_lt_Some _ _ _ Hj) as Hlt.
  exists j, t, t1. eexists _, _, _, _, _.
  split; [done|]. split; [done|]. split; [exact Hm1|]. split; [exact Hm2|].
  simpl. split; [by apply list_lookup_insert_eq|].
  split; [apply list_lookup_insert_eq; by rewrite length_insert|].
  repeat split; done.
Qed.

Lemma mark_task_twice_witness :
  ∃ i t t1 t2 self1 w1 self2 w2,
    tasks store_ab !! i = Some t ∧ id t = of_arg (Some "a") ∧
    TaskManagerC.mark_task store_ab (Some "a") (PStr "done") empty_world
    = (Ok self1, w1) ∧
    TaskManagerC.mark_task self1 (Some "a") (PStr "done") w1 = (Ok self2, w2) ∧
    tasks self1 !! i = Some t1 ∧ tasks self2 !! i = Some t2 ∧
    status t1 = PStr "done" ∧ status t2 = PStr "done" ∧
    updatedAt t1 = PStr (clock empty_world (ticks empty_world)) ∧
    updatedAt t2 = PStr (clock empty_world (S (ticks empty_world))) ∧
    (time_le (updatedAt t) (PStr (clock empty_world (ticks empty_world))) →
     time_le (updatedAt t) (updatedAt t1)) ∧
    (String.leb (clock empty_world (ticks empty_world))
                (clock empty_world (S (ticks empty_world))) = true →
     time_le (updatedAt t1) (updatedAt t2)).
Proof.
  apply (mark_task_twice store_ab (Some "a") (PStr "done") empty_world).
  exists task_a. split; [|reflexivity].
  unfold store_ab. simpl. apply elem_of_cons. left. reflexivity.
Defined.

(** ** Invariants of the collection *)

Lemma from_dict_status item w t w' :
  TaskC.from_dict item w = (Ok t, w') → subscript item "status" = Ok (status t).
Proof.
  unfold TaskC.from_dict. unfold_monad.
  destruct (subscript item "id") as [i|]; [|done].
  destruct (subscript item "description") as [d|]; [|done].
  destruct (subscript item "status") as [s|]; [|done].
  destruct (subscript item "createdAt") as [c|]; [|done].
  destruct (subscript item "updatedAt") as [u|]; [|done].
  destruct (init_total d i s c u w) as (t0 & w0 & -> & _ & <- & _).
  by intros [= <- _].
Qed.

Lemma mapM_from_dict_status items w ts w' :
  mapM TaskC.from_dict items w = (Ok ts, w') →
  Forall2 (fun item t => subscript item "status" = Ok (status t)) items ts.
Proof.
  revert w ts w'. induction items as [|item items IH]; intros w ts w'; simpl.
  - unfold_monad. intros [= <- _]. constructor.
  - unfold_monad.
    destruct (TaskC.from_dict item w) as [[t|e] w1] eqn:Ht; [|done].
    destruct (mapM TaskC.from_dict items w1) as [[ts'|e] w2] eqn:Hm; [|done].
    intros [= <- _]. constructor; [by eapply from_dict_status | by eapply IH].
Qed.

Lemma load_status_ok fn w ts w' :
  file_status_ok w fn →
  TaskManagerC._load_tasks fn w = (Ok ts, w') → status_ok ts.
Proof.
  intros Hfile. unfold TaskManagerC._load_tasks, try_except, json_load.
  pose proof mapM_from_dict_status as Hst. unfold_monad.
  destruct (fs w !! fn) as [[bytes|raw|data]|] eqn:Hfn; simpl.
  - done.
  - intros [= <- _]. constructor.
  - destruct (py_iter data) as [items|e] eqn:Hit; simpl;
      [|destruct e; try done; intros [= <- _]; constructor].
    specialize (Hfile data items Hfn Hit).
    destruct (mapM TaskC.from_dict items w) as [[ts'|e] w1] eqn:Hm.
    + intros [= <- _]. apply Hst in Hm. clear Hst Hit.
      induction Hm as [|item t items ts' Hs _ IH]; [constructor|].
      apply Forall_cons in Hfile as [Hitem Hitems].
      constructor; [by apply Hitem | by apply IH].
    + destruct e; try done; intros [= <- _]; constructor.
  - intros [= <- _]. constructor.
Qed.

Lemma apply_op_total o self w :
  ∃ self' w', apply_op o self w = (Ok self', w') ∧
              filename self' = filename self ∧
              (Forall task_wf (tasks self) → Forall task_wf (tasks self')) ∧
              (op_ok o → status_ok (tasks self) → status_ok (tasks self')).
Proof.
  destruct o as [d|uuid d|uuid|uuid s]; simpl.
  - eexists _, _. split; [apply create_task_eq|]. split; [done|]. simpl.
    split; [intros H | intros _ H]; apply Forall_app; split; try done;
      repeat constructor; done.
  - destruct (TaskManagerC._find_task self uuid) as [[i t]|] eqn:Hfind.
    + eexists _, _. split; [by apply update_task_found|]. split; [done|]. simpl.
      apply find_from_Some in Hfind as (j & -> & Hj & _). simpl in Hj.
      split; [intros H | intros _ H]; apply Forall_insert; try done;
        eapply Forall_lookup_1 in H; try exact Hj;
        [destruct H as (? & ? & ?); by repeat split | exact H].
    + eexists _, _. split; [by apply update_task_missing|]. done.
  - destruct (TaskManagerC._find_task self uuid) as [[i t]|] eqn:Hfind.
    + eexists _, _. split; [exact (delete_task_found self w uuid i t Hfind)|].
      split; [done|]. simpl.
      split; [intros H | intros _ H]; by apply Forall_delete.
    + eexists _, _. split; [by apply delete_task_missing|]. done.
  - destruct (TaskManagerC._find_task self uuid) as [[i t]|] eqn:Hfind.
    + eexists _, _. split; [by apply mark_task_found|]. split; [done|]. simpl.
      apply find_from_Some in Hfind as (j & -> & Hj & _). simpl in Hj.
      split; [intros H | intros Hs H]; apply Forall_insert; try done.
      eapply Forall_lookup_1 in H; try exact Hj.
      destruct H as (? & ? & ?). by repeat split.
    + eexists _, _. split; [by apply mark_task_missing|]. done.
Qed.

Lemma run_ops_total ops self w :
  ∃ self' w', run_ops ops self w = (Ok self', w') ∧
              filename self' = filename self ∧
              (Forall task_wf (tasks self) → Forall task_wf (tasks self')) ∧
              (Forall op_ok ops → status_ok (tasks self) → status_ok (tasks self')).
Proof.
  revert self w. induction ops as [|o ops IH]; intros self w; simpl.
  - by eexists _, _.
  - destruct (apply_op_total o self w) as (self1 & w1 & Ho & Hfn1 & Hwf1 & Hst1).
    destruct (IH self1 w1) as (self' & w' & Hr & Hfn & Hwf & Hst).
    exists self', w'. unfold_monad. rewrite Ho, Hr.
    split; [done|]. split; [congruence|]. split; [auto|].
    intros [Hok Hoks]%Forall_cons. auto.
Qed.

(** Every collection reached by operations from a collection of
    well-formed tasks consists of well-formed tasks. *)
Lemma run_ops_wf ops self w self' w' :
  Forall task_wf (tasks self) →
  run_ops ops self w = (Ok self', w') → Forall task_wf (tasks self').
Proof.
  intros Hwf Hr.
  destruct (run_ops_total ops self w) as (self1 & w1 & Hr1 & _ & H & _).
  rewrite Hr in Hr1. injection Hr1 as <- <-. auto.
Qed.

(** *** C6 *)

(** C6, counterexample: Load keeps a status that is outside the
    enumeration. *)
Lemma load_keeps_odd_status :
  ∃ tm w' t,
    TaskManagerC.__init__ "tasks.json"
      (world_of {["tasks.json" := Document file_odd_status]}) = (Ok tm, w') ∧
    tasks tm = [t] ∧ status t = PStr "archived" ∧ in_enum (status t) = false.
Proof.
  eexists _, _, _. split; [vm_compute; reflexivity|].
  split; [reflexivity|]. split; reflexivity.
Qed.

(** C6, amended: if every record of the loaded file has a status of the
    enumeration and every Mark is given a status of the enumeration, then
    any sequence of Create, Update, Delete and Mark after Load runs to an
    end and every task of the collection it reaches has a status of the
    enumeration.  Neither Load nor Mark checks the status. *)
Theorem status_invariant (fn : string) (w : World) (ops : list op)
        (tm : TaskManager) (w0 : World) :
  file_status_ok w fn →
  Forall op_ok ops →
  TaskManagerC.__init__ fn w = (Ok tm, w0) →
  ∃ tm' w', run_ops ops tm w0 = (Ok tm', w') ∧ status_ok (tasks tm').
Proof.
  intros Hfile Hops Hinit.
  assert (Hst : status_ok (tasks tm)).
  { revert Hinit. unfold TaskManagerC.__init__. unfold_monad.
    destruct (TaskManagerC._load_tasks fn w) as [[ts|e] w1] eqn:Hl; [|done].
    intros [= <- _]. simpl. by eapply load_status_ok. }
  destruct (run_ops_total ops tm w0) as (tm' & w' & Hr & _ & _ & H).
  exists tm', w'. auto.
Qed.

Lemma status_invariant_witness :
  ∃ tm' w', run_ops sample_ops (mkTaskManager "tasks.json" [task_a]) world_a
            = (Ok tm', w') ∧ status_ok (tasks tm').
Proof.
  apply (status_invariant "tasks.json" world_a sample_ops
           (mkTaskManager "tasks.json" [task_a]) world_a).
  - intros data items Hfs Hit. vm_compute in Hfs. injection Hfs as <-.
    vm_compute in Hit. injection Hit as <-.
    constructor; [|constructor]. intros v Hv. vm_compute in Hv.
    injection Hv as <-. reflexivity.
  - unfold sample_ops. repeat constructor.
  - vm_compute. reflexivity.
Defined.

(** ** List *)

Lemma print_task_eq task w :
  TaskManagerC.print_task task w = (Ok tt, emit w (task_lines task)).
Proof.
  unfold TaskManagerC.print_task, emit, task_lines, print. unfold_monad. simpl.
  by rewrite <- !app_assoc.
Qed.

Lemma emit_emit w ls1 ls2 : emit (emit w ls1) ls2 = emit w (ls1 ++ ls2).
Proof. unfold emit. simpl. by rewrite app_assoc. Qed.

Lemma emit_nil w : emit w [] = w.
Proof. unfold emit. rewrite app_nil_r. by destruct w. Qed.

(** The loop prints every task, whatever status was asked for. *)
Lemma list_loop_eq l wanted w :
  TaskManagerC.list_loop l wanted w =
  (Ok tt, emit w (flat_map task_lines l)).
Proof.
  revert w. induction l as [|task l IH]; intros w.
  - simpl. unfold_monad. by rewrite emit_nil.
  - cbn [TaskManagerC.list_loop flat_map].
    pose proof (print_task_eq task w) as Hp. unfold_monad.
    destruct (py_eq_opt_str (status task) wanted);
      rewrite Hp, IH, emit_emit; reflexivity.
Qed.

Lemma list_tasks_eq self wanted w :
  tasks self ≠ [] →
  TaskManagerC.list_tasks self wanted w =
  (Ok tt, emit w (Line [Lit "List of Tasks:"] :: flat_map task_lines (tasks self))).
Proof.
  intros Hne. unfold TaskManagerC.list_tasks.
  pose proof (list_loop_eq (tasks self) wanted) as Hl.
  destruct (tasks self) as [|t l] eqn:E; [done|].
  unfold_monad. unfold print. rewrite Hl. unfold emit. simpl.
  by rewrite <- app_assoc.
Qed.

Lemma list_tasks_ignores_status self wanted w :
  TaskManagerC.list_tasks self wanted w = TaskManagerC.list_tasks self None w.
Proof.
  destruct (tasks self) as [|t l] eqn:E.
  - unfold TaskManagerC.list_tasks. by rewrite E.
  - rewrite !list_tasks_eq; [done | by rewrite E | by rewrite E].
Qed.

(** *** C1 *)

(** C1, the code at the failing input: asked for the tasks with status
    done, [list_tasks] prints the task whose status is todo as well; the two
    branches of its test print the same lines. *)
Theorem list_tasks_prints_other_status :
  py_eq_opt_str (status task_a) (Some "done") = false ∧
  TaskManagerC.list_tasks store_ab (Some "done") empty_world =
  (Ok tt, emit empty_world
            (Line [Lit "List of Tasks:"] :: task_lines task_a ++ task_lines task_b)).
Proof.
  split; [reflexivity|]. rewrite list_tasks_eq by done. reflexivity.
Qed.

(** ** The command line *)

(** *** C2 *)

(** C2, the code on [mark <id> <status>]: once the store is loaded, [main]
    reads [args.new_status], an attribute the parser never sets (the
    argument is declared as [status]), so it raises [AttributeError] and
    [mark_task] is not called; the world is the one Load left. *)
Theorem main_mark_raises (fo : option string) (i s : string) (w : World)
        (tm : TaskManager) (w' : World) :
  in_choices s = true →
  TaskManagerC.__init__ (default "tasks.json" fo) w = (Ok tm, w') →
  main (mkInvocation fo (Some (Mark i s))) w
  = (Raise (AttributeError "new_status"), w').
Proof.
  intros Hs Hinit. unfold main, parse_args. simpl. rewrite Hs.
  unfold_monad. simpl. by rewrite Hinit.
Qed.

Lemma main_mark_raises_witness :
  main (mkInvocation None (Some (Mark "a" "done"))) world_a
  = (Raise (AttributeError "new_status"), world_a).
Proof.
  apply (main_mark_raises None "a" "done" world_a
           (mkTaskManager "tasks.json" [task_a]) world_a).
  - reflexivity.
  - vm_compute. reflexivity.
Defined.

(** * Further properties of the store *)

(** ** Finding, deleting and marking *)

Lemma find_from_first k uuid l j t :
  l !! j = Some t → id t = of_arg uuid →
  (∀ j' t', j' < j → l !! j' = Some t' → id t' ≠ of_arg uuid) →
  TaskManagerC.find_from k uuid l = Some (k + j, t).
Proof.
  revert k j. induction l as [|t0 l IH]; intros k j Hj Hid Hbefore; [done|].
  simpl. destruct j as [|j]; simpl in Hj.
  - injection Hj as ->. apply py_eq_opt_str_true in Hid. rewrite Hid.
    by rewrite Nat.add_0_r.
  - assert (E : py_eq_opt_str (id t0) uuid = false).
    { apply py_eq_opt_str_false. apply (Hbefore 0 t0); [lia | done]. }
    rewrite E. replace (k + S j) with (S k + j) by lia.
    apply IH; [done | done |].
    intros j' t' Hlt Hj'. apply (Hbefore (S j') t'); [lia | done].
Qed.

(** X1: [_find_task] returns the first task, in stored order, whose id
    equals the one asked for, and [None] exactly when no task has it. *)
Theorem find_task_first_match (self : TaskManager) (uuid : option string) :
  (∀ i t, TaskManagerC._find_task self uuid = Some (i, t) ↔
          tasks self !! i = Some t ∧ id t = of_arg uuid ∧
          ∀ j t0, j < i → tasks self !! j = Some t0 → id t0 ≠ of_arg uuid) ∧
  (TaskManagerC._find_task self uuid = None ↔
   ∀ t, t ∈ tasks self → id t ≠ of_arg uuid).
Proof.
  split; [|apply find_from_None].
  intros i t. split.
  - intros H. apply find_from_Some in H as (j & -> & Hj & Hid & Hb). eauto.
  - intros (Hi & Hid & Hb). by apply (find_from_first 0).
Qed.

(** X2: when some task has the given id, Delete succeeds and removes the
    first such task and nothing else: the tasks before and after it keep
    their order, the collection is one shorter, and the backing file holds
    the collection that remains. *)
Theorem delete_task_removes (self : TaskManager) (uuid : option string)
        (w : World) :
  (∃ t, t ∈ tasks self ∧ id t = of_arg uuid) →
  ∃ i t self' w',
    TaskManagerC.delete_task self uuid w = (Ok self', w') ∧
    tasks self !! i = Some t ∧ id t = of_arg uuid ∧
    (∀ j t0, j < i → tasks self !! j = Some t0 → id t0 ≠ of_arg uuid) ∧
    tasks self' = take i (tasks self) ++ drop (S i) (tasks self) ∧
    length (tasks self) = S (length (tasks self')) ∧
    filename self' = filename self ∧
    fs w' = <[filename self := Document (PList (map TaskC.to_dict (tasks self')))]> (fs w) ∧
    stdout w' = stdout w ++ [Line [Lit "Task with id "; Val (of_arg uuid);
                                   Lit " deleted successfully."]].
Proof.
  intros Hin. destruct (find_from_present 0 uuid _ Hin) as (i & t & Hfind).
  pose proof (delete_task_found self w uuid i t Hfind) as Hdel.
  apply find_from_Some in Hfind as (j & -> & Hj & Hid & Hbefore). simpl in *.
  exists j, t. eexists _, _. split; [exact Hdel|]. simpl.
  split; [done|]. split; [done|]. split; [done|].
  split; [apply delete_take_drop|]. split; [|done].
  pose proof (lookup_lt_Some _ _ _ Hj) as Hlt.
  rewrite length_delete by eauto. lia.
Qed.

Lemma delete_task_removes_witness :
  ∃ i t self' w',
    TaskManagerC.delete_task store_ab (Some "a") empty_world = (Ok self', w') ∧
    tasks store_ab !! i = Some t ∧ id t = of_arg (Some "a") ∧
    (∀ j t0, j < i → tasks store_ab !! j = Some t0 → id t0 ≠ of_arg (Some "a")) ∧
    tasks self' = take i (tasks store_ab) ++ drop (S i) (tasks store_ab) ∧
    length (tasks store_ab) = S (length (tasks self')) ∧
    filename self' = filename store_ab ∧
    fs w' = <[filename store_ab := Document (PList (map TaskC.to_dict (tasks self')))]>
              (fs empty_world) ∧
    stdout w' = stdout empty_world ++
                [Line [Lit "Task with id "; Val (of_arg (Some "a"));
                       Lit " deleted successfully."]].
Proof.
  apply (delete_task_removes store_ab (Some "a") empty_world).
  exists task_a. split; [|reflexivity].
  unfold store_ab. simpl. apply elem_of_cons. left. reflexivity.
Defined.

(** X3: when some task has the given id, Mark succeeds and replaces, at the
    position of the first such task, its status by the new one and its
    updatedAt by the clock reading; that task keeps its id, description
    and createdAt, every other position holds the task it held before, and
    the backing file holds the new collection. *)
Theorem mark_task_frame (self : TaskManager) (uuid : option string)
        (s : pyval) (w : World) :
  (∃ t, t ∈ tasks self ∧ id t = of_arg uuid) →
  ∃ i t t' self' w',
    TaskManagerC.mark_task self uuid s w = (Ok self', w') ∧
    tasks self !! i = Some t ∧ id t = of_arg uuid ∧
    (∀ j t0, j < i → tasks self !! j = Some t0 → id t0 ≠ of_arg uuid) ∧
    tasks self' !! i = Some t' ∧
    status t' = s ∧ updatedAt t' = PStr (clock w (ticks w)) ∧
    id t' = id t ∧ description t' = description t ∧
    createdAt t' = createdAt t ∧
    (∀ j, j ≠ i → tasks self' !! j = tasks self !! j) ∧
    length (tasks self') = length (tasks self) ∧
    filename self' = filename self ∧
    fs w' = <[filename self := Document (PList (map TaskC.to_dict (tasks self')))]> (fs w).
Proof.
  intros Hin. destruct (find_from_present 0 uuid _ Hin) as (i & t & Hfind).
  pose proof (mark_task_found self w uuid s i t Hfind) as Hm.
  apply find_from_Some in Hfind as (j & -> & Hj & Hid & Hbefore). simpl in *.
  exists j, t. eexists _, _, _. split; [exact Hm|]. simpl.
  split; [done|]. split; [done|]. split; [done|].
  split; [apply list_lookup_insert_eq; by eapply lookup_lt_Some|].
  repeat split; try done.
  - intros j' Hne. by apply list_lookup_insert_ne.
  - apply length_insert.
Qed.

Lemma mark_task_frame_witness :
  ∃ i t t' self' w',
    TaskManagerC.mark_task store_ab (Some "b") (PStr "todo") empty_world
    = (Ok self', w') ∧
    tasks store_ab !! i = Some t ∧ id t = of_arg (Some "b") ∧
    (∀ j t0, j < i → tasks store_ab !! j = Some t0 → id t0 ≠ of_arg (Some "b")) ∧
    tasks self' !! i = Some t' ∧
    status t' = PStr "todo" ∧
    updatedAt t' = PStr (clock empty_world (ticks empty_world)) ∧
    id t' = id t ∧ description t' = description t ∧
    createdAt t' = createdAt t ∧
    (∀ j, j ≠ i → tasks self' !! j = tasks store_ab !! j) ∧
    length (tasks self') = length (tasks store_ab) ∧
    filename self' = filename store_ab ∧
    fs w' = <[filename store_ab := Document (PList (map TaskC.to_dict (tasks self')))]>
              (fs empty_world).
Proof.
  apply (mark_task_frame store_ab (Some "b") (PStr "todo") empty_world).
  exists task_b. split; [|reflexivity].
  unfold store_ab. simpl. apply elem_of_cons. right. apply elem_of_cons. left.
  reflexivity.
Defined.

(** X4: a task just created is the one found under its new id, at the end
    of the collection, provided the identifier drawn is not already the id
    of a task; the backing file then holds the whole collection. *)
Theorem create_then_find (self : TaskManager) (d : pyval) (w : World) :
  (∀ t', t' ∈ tasks self → id t' ≠ PStr (uuid_src w (draws w))) →
  ∃ t self' w',
    TaskManagerC.create_task self d w = (Ok self', w') ∧
    TaskManagerC._find_task self' (Some (uuid_src w (draws w)))
    = Some (length (tasks self), t) ∧
    description t = d ∧ status t = PStr "todo" ∧
    mirror self' w'.
Proof.
  intros Hfresh. exists (created w d). eexists _, _.
  split; [apply create_task_eq|].
  split; [|split; [done|split; [done|]]].
  - unfold TaskManagerC._find_task. simpl.
    apply (find_from_first 0 (Some (uuid_src w (draws w)))
             (tasks self ++ [created w d]) (length (tasks self))).
    + by apply list_lookup_middle.
    + done.
    + intros j t' Hlt Hj. rewrite lookup_app_l in Hj by done.
      apply Hfresh. by eapply list_elem_of_lookup_2.
  - unfold mirror. simpl. apply lookup_insert_eq.
Qed.

Lemma create_then_find_witness :
  ∃ t self' w',
    TaskManagerC.create_task store_ab (PStr "water plants") empty_world
    = (Ok self', w') ∧
    TaskManagerC._find_task self' (Some (uuid_src empty_world (draws empty_world)))
    = Some (length (tasks store_ab), t) ∧
    description t = PStr "water plants" ∧ status t = PStr "todo" ∧
    mirror self' w'.
Proof.
  apply (create_then_find store_ab (PStr "water plants") empty_world).
  intros t' Ht'. unfold store_ab in Ht'. simpl in Ht'.
  apply elem_of_cons in Ht' as [->|Ht']; [discriminate|].
  apply elem_of_cons in Ht' as [->|Ht']; [discriminate|].
  by apply not_elem_of_nil in Ht'.
Defined.

Lemma ids_lookup ts i t : ts !! i = Some t → ids ts !! i = Some (id t).
Proof. intros H. unfold ids. by rewrite list_lookup_fmap, H. Qed.

Lemma ids_insert ts i t t' :
  ts !! i = Some t → id t' = id t → ids (<[i := t']> ts) = ids ts.
Proof.
  intros Hi Hid. unfold ids. rewrite list_fmap_insert, Hid.
  apply list_insert_id. by apply ids_lookup.
Qed.

Lemma ids_delete ts i : ids (delete i ts) = delete i (ids ts).
Proof.
  unfold ids. by rewrite !delete_take_drop, fmap_app, fmap_take, fmap_drop.
Qed.

(** X5: when the ids of the collection are pairwise distinct, deleting a
    task leaves no task with that id, so that a second Delete of the same
    id only reports not-found. *)
Theorem delete_task_twice (self : TaskManager) (uuid : option string)
        (w : World) :
  NoDup (ids (tasks self)) →
  (∃ t, t ∈ tasks self ∧ id t = of_arg uuid) →
  ∃ self' w',
    TaskManagerC.delete_task self uuid w = (Ok self', w') ∧
    (∀ t, t ∈ tasks self' → id t ≠ of_arg uuid) ∧
    TaskManagerC.delete_task self' uuid w'
    = (Ok self', printed w' (not_found uuid)).
Proof.
  intros Hnd Hin. destruct (find_from_present 0 uuid _ Hin) as (i & t & Hfind).
  pose proof (delete_task_found self w uuid i t Hfind) as Hdel.
  apply find_from_Some in Hfind as (j & -> & Hj & Hid & Hbefore). simpl in *.
  eexists _, _. split; [exact Hdel|].
  assert (Hgone : ∀ t0, t0 ∈ delete j (tasks self) → id t0 ≠ of_arg uuid).
  { intros t0 [k Hk]%list_elem_of_lookup_1.
    destruct (decide (k < j)) as [Hlt|Hge].
    - rewrite list_lookup_delete_lt in Hk by done. by eapply Hbefore.
    - rewrite list_lookup_delete_ge in Hk by lia. intros Hid0.
      apply ids_lookup in Hk. apply ids_lookup in Hj.
      rewrite Hid0, <- Hid in Hk.
      pose proof (NoDup_lookup _ _ _ _ Hnd Hk Hj). lia. }
  split; [exact Hgone|].
  apply delete_task_missing. by apply find_from_None.
Qed.

Lemma delete_task_twice_witness :
  ∃ self' w',
    TaskManagerC.delete_task store_ab (Some "a") empty_world = (Ok self', w') ∧
    (∀ t, t ∈ tasks self' → id t ≠ of_arg (Some "a")) ∧
    TaskManagerC.delete_task self' (Some "a") w'
    = (Ok self', printed w' (not_found (Some "a"))).
Proof.
  apply (delete_task_twice store_ab (Some "a") empty_world).
  - unfold store_ab, ids. simpl. apply NoDup_cons. split.
    + intros H. apply list_elem_of_singleton in H. discriminate.
    + apply NoDup_singleton.
  - exists task_a. split; [|reflexivity].
    unfold store_ab. simpl. apply elem_of_cons. left. reflexivity.
Defined.

(** ** Ids under sequences of operations *)

Lemma apply_op_ids o self w :
  ∃ self' w',
    apply_op o self w = (Ok self', w') ∧ uuid_src w' = uuid_src w ∧
    ((ids (tasks self') = ids (tasks self) ∧ draws w' = draws w) ∨
     (ids (tasks self') = ids (tasks self) ++ [PStr (uuid_src w (draws w))] ∧
      draws w' = S (draws w)) ∨
     (∃ j, ids (tasks self') = delete j (ids (tasks self)) ∧ draws w' = draws w)).
Proof.
  destruct o as [d|uuid d|uuid|uuid s]; simpl.
  - eexists _, _. split; [apply create_task_eq|]. split; [done|].
    right. left. simpl. split; [|done]. unfold ids. by rewrite fmap_app.
  - destruct (TaskManagerC._find_task self uuid) as [[i t]|] eqn:Hfind.
    + eexists _, _. split; [by apply update_task_found|]. split; [done|].
      left. simpl. split; [|done].
      apply find_from_Some in Hfind as (j & -> & Hj & _). simpl in Hj.
      by apply ids_insert with (t := t).
    + eexists _, _. split; [by apply update_task_missing|]. split; [done|].
      by left.
  - destruct (TaskManagerC._find_task self uuid) as [[i t]|] eqn:Hfind.
    + eexists _, _. split; [exact (delete_task_found self w uuid i t Hfind)|].
      split; [done|]. right. right. exists i. simpl. split; [|done].
      apply ids_delete.
    + eexists _, _. split; [by apply delete_task_missing|]. split; [done|].
      by left.
  - destruct (TaskManagerC._find_task self uuid) as [[i t]|] eqn:Hfind.
    + eexists _, _. split; [by apply mark_task_found|]. split; [done|].
      left. simpl. split; [|done].
      apply find_from_Some in Hfind as (j & -> & Hj & _). simpl in Hj.
      by apply ids_insert with (t := t).
    + eexists _, _. split; [by apply mark_task_missing|]. split; [done|].
      by left.
Qed.

Lemma apply_op_unique o self w :
  NoDup (ids (tasks self)) → fresh_source self w →
  ∃ self' w',
    apply_op o self w = (Ok self', w') ∧
    NoDup (ids (tasks self')) ∧ fresh_source self' w'.
Proof.
  intros Hnd [Hinj Hfresh].
  destruct (apply_op_ids o self w) as (self' & w' & Ho & Hsrc & Hcases).
  exists self', w'. split; [done|]. unfold fresh_source. rewrite Hsrc.
  destruct Hcases as [ [-> ->] | [ [-> ->] | (j & -> & ->) ] ].
  - done.
  - split; [|split].
    + apply NoDup_app. split; [done|]. split; [|apply NoDup_singleton].
      intros v Hv ->%list_elem_of_singleton. by apply (Hfresh _ (draws w) Hv).
    + intros n m Hn Hm. apply Hinj; lia.
    + intros v n [Hv | ->%list_elem_of_singleton]%elem_of_app Hn.
      * apply Hfresh; [done | lia].
      * intros [= Heq]. apply Hinj in Heq; lia.
  - split; [|split; [done|]].
    + eapply sublist_NoDup; [done | apply sublist_delete].
    + intros v n Hv. apply Hfresh. by eapply list_elem_of_delete_inv.
Qed.

(** X6: the ids of the collection stay pairwise distinct under every
    sequence of Create, Update, Delete and Mark, as long as the identifiers
    that [uuid4] draws are distinct from each other and from the ids the
    collection starts with.  No operation itself checks for a collision. *)
Theorem ids_stay_unique (ops : list op) (self : TaskManager) (w : World) :
  NoDup (ids (tasks self)) → fresh_source self w →
  ∃ self' w', run_ops ops self w = (Ok self', w') ∧ NoDup (ids (tasks self')).
Proof.
  revert self w. induction ops as [|o ops IH]; intros self w Hnd Hsrc; simpl.
  - by eexists _, _.
  - destruct (apply_op_unique o self w Hnd Hsrc) as (self1 & w1 & Ho & Hnd1 & Hsrc1).
    destruct (IH self1 w1 Hnd1 Hsrc1) as (self' & w' & Hr & Hnd').
    exists self', w'. unfold_monad. by rewrite Ho, Hr.
Qed.

Lemma tally_inj n m : tally n = tally m → n = m.
Proof.
  revert m. induction n as [|n IH]; intros [|m]; simpl; try done.
  intros [= H]. f_equal. by apply IH.
Qed.

Lemma tally_letters n : tally n ≠ "a" ∧ tally n ≠ "b".
Proof. destruct n as [|[|n]]; simpl; split; discriminate. Qed.

Lemma ids_stay_unique_witness :
  ∃ self' w',
    run_ops [OpCreate (PStr "x"); OpCreate (PStr "y"); OpDelete (Some "a")]
            store_ab world_tally = (Ok self', w') ∧
    NoDup (ids (tasks self')).
Proof.
  apply (ids_stay_unique
           [OpCreate (PStr "x"); OpCreate (PStr "y"); OpDelete (Some "a")]
           store_ab world_tally).
  - unfold store_ab, ids. simpl. apply NoDup_cons. split.
    + intros H. apply list_elem_of_singleton in H. discriminate.
    + apply NoDup_singleton.
  - split.
    + intros n m _ _. apply tally_inj.
    + intros v n Hv _. unfold store_ab, ids in Hv. simpl in Hv.
      destruct (tally_letters n) as [Ha Hb].
      apply elem_of_cons in Hv as [->|Hv];
        [intros [= H]; simpl in H; congruence|].
      apply elem_of_cons in Hv as [->|Hv];
        [intros [= H]; simpl in H; congruence|].
      by apply not_elem_of_nil in Hv.
Defined.

Lemma created_ats_insert (ts : list Task) (i : nat) (t t' : Task) :
  ts !! i = Some t → createdAt t' = createdAt t →
  createdAt <$> <[i := t']> ts = createdAt <$> ts.
Proof.
  intros Hi Hc. rewrite list_fmap_insert, Hc.
  apply list_insert_id. by rewrite list_lookup_fmap, Hi.
Qed.

Lemma apply_op_edit o self w :
  is_edit o = true →
  ∃ self' w',
    apply_op o self w = (Ok self', w') ∧
    ids (tasks self') = ids (tasks self) ∧
    createdAt <$> tasks self' = createdAt <$> tasks self.
Proof.
  destruct o as [d|uuid d|uuid|uuid s]; simpl; try done; intros _.
  - destruct (TaskManagerC._find_task self uuid) as [[i t]|] eqn:Hfind.
    + eexists _, _. split; [by apply update_task_found|]. simpl.
      apply find_from_Some in Hfind as (j & -> & Hj & _). simpl in Hj.
      split; [by apply ids_insert with (t := t)
             | by apply created_ats_insert with (t := t)].
    + eexists _, _. split; [by apply update_task_missing|]. done.
  - destruct (TaskManagerC._find_task self uuid) as [[i t]|] eqn:Hfind.
    + eexists _, _. split; [by apply mark_task_found|]. simpl.
      apply find_from_Some in Hfind as (j & -> & Hj & _). simpl in Hj.
      split; [by apply ids_insert with (t := t)
             | by apply created_ats_insert with (t := t)].
    + eexists _, _. split; [by apply mark_task_missing|]. done.
Qed.

(** X7: id and createdAt are immutable under edits: after any sequence of
    Update and Mark operations, found or not, the collection has the same
    ids and the same createdAt values at the same positions, hence the
    same number of tasks in the same order. *)
Theorem edits_keep_identity (ops : list op) (self : TaskManager) (w : World) :
  forallb is_edit ops = true →
  ∃ self' w',
    run_ops ops self w = (Ok self', w') ∧
    ids (tasks self') = ids (tasks self) ∧
    createdAt <$> tasks self' = createdAt <$> tasks self ∧
    length (tasks self') = length (tasks self).
Proof.
  revert self w. induction ops as [|o ops IH]; intros self w; simpl.
  - intros _. by eexists _, _.
  - intros [Ho Hops]%andb_prop.
    destruct (apply_op_edit o self w Ho) as (self1 & w1 & He & Hi1 & Hc1).
    destruct (IH self1 w1 Hops) as (self' & w' & Hr & Hi & Hc & Hl).
    exists self', w'. unfold_monad. rewrite He, Hr.
    split; [done|]. split; [congruence|]. split; [congruence|].
    rewrite Hl. unfold ids in Hi1.
    by rewrite <- (length_fmap id (tasks self1)), Hi1, length_fmap.
Qed.

Lemma edits_keep_identity_witness :
  ∃ self' w',
    run_ops [OpMark (Some "a") (PStr "done"); OpUpdate (Some "b") (PStr "walk cat");
             OpMark (Some "zzz") (PStr "todo")] store_ab empty_world
    = (Ok self', w') ∧
    ids (tasks self') = ids (tasks store_ab) ∧
    createdAt <$> tasks self' = createdAt <$> tasks store_ab ∧
    length (tasks self') = length (tasks store_ab).
Proof.
  apply (edits_keep_identity
           [OpMark (Some "a") (PStr "done"); OpUpdate (Some "b") (PStr "walk cat");
            OpMark (Some "zzz") (PStr "todo")] store_ab empty_world).
  reflexivity.
Defined.

(** ** Invariants of the store *)

(** X8: every task the store holds, after Load and after any sequence of
    operations, has an id, a createdAt and an updatedAt that are not
    [None], whatever the file contained: [Task.__init__] fills them in. *)
Theorem store_tasks_well_formed (fn : string) (w : World) (ops : list op)
        (tm : TaskManager) (w0 : World) :
  TaskManagerC.__init__ fn w = (Ok tm, w0) →
  Forall task_wf (tasks tm) ∧
  ∃ tm' w', run_ops ops tm w0 = (Ok tm', w') ∧ Forall task_wf (tasks tm').
Proof.
  intros Hinit.
  assert (Hwf : Forall task_wf (tasks tm)).
  { revert Hinit. unfold TaskManagerC.__init__. unfold_monad.
    destruct (TaskManagerC._load_tasks fn w) as [[ts|e] w1] eqn:Hl; [|done].
    intros [= <- _]. simpl. by eapply load_wf. }
  split; [done|].
  destruct (run_ops_total ops tm w0) as (tm' & w' & Hr & _ & H & _).
  exists tm', w'. auto.
Qed.

Lemma store_tasks_well_formed_witness :
  Forall task_wf (tasks (mkTaskManager "tasks.json" [task_a])) ∧
  ∃ tm' w', run_ops sample_ops (mkTaskManager "tasks.json" [task_a]) world_a
            = (Ok tm', w') ∧ Forall task_wf (tasks tm').
Proof.
  apply (store_tasks_well_formed "tasks.json" world_a sample_ops
           (mkTaskManager "tasks.json" [task_a]) world_a).
  vm_compute. reflexivity.
Defined.

Lemma apply_op_mirror o self w :
  mirror self w →
  ∃ self' w', apply_op o self w = (Ok self', w') ∧ mirror self' w'.
Proof.
  intros Hm. unfold mirror.
  destruct o as [d|uuid d|uuid|uuid s]; simpl.
  - eexists _, _. split; [apply create_task_eq|]. simpl. apply lookup_insert_eq.
  - destruct (TaskManagerC._find_task self uuid) as [[i t]|] eqn:Hfind.
    + eexists _, _. split; [by apply update_task_found|]. simpl.
      apply lookup_insert_eq.
    + eexists _, _. split; [by apply update_task_missing|]. done.
  - destruct (TaskManagerC._find_task self uuid) as [[i t]|] eqn:Hfind.
    + eexists _, _. split; [exact (delete_task_found self w uuid i t Hfind)|].
      simpl. apply lookup_insert_eq.
    + eexists _, _. split; [by apply delete_task_missing|]. done.
  - destruct (TaskManagerC._find_task self uuid) as [[i t]|] eqn:Hfind.
    + eexists _, _. split; [by apply mark_task_found|]. simpl.
      apply lookup_insert_eq.
    + eexists _, _. split; [by apply mark_task_missing|]. done.
Qed.

(** X9: the backing file mirrors the collection after every operation: if
    the file holds the serialised collection before a sequence of Create,
    Update, Delete and Mark, it holds the serialised collection after it,
    and constructing a new store from that file gives back exactly the
    collection in memory. *)
Theorem file_mirrors_memory (ops : list op) (self : TaskManager) (w : World) :
  mirror self w → Forall task_wf (tasks self) →
  ∃ self' w',
    run_ops ops self w = (Ok self', w') ∧
    mirror self' w' ∧
    TaskManagerC.__init__ (filename self') w' = (Ok self', w').
Proof.
  revert self w. induction ops as [|o ops IH]; intros self w Hm Hwf; simpl.
  - exists self, w. split; [done|]. split; [done|].
    unfold TaskManagerC.__init__. unfold_monad.
    rewrite (load_records (filename self) w
               (map TaskC.to_dict (tasks self)) (tasks self)).
    + by destruct self.
    + exact Hm.
    + apply Forall2_fmap_l, Forall_Forall2_diag, Forall_forall.
      intros t _. apply to_dict_has_fields.
    + done.
  - destruct (apply_op_mirror o self w Hm) as (self1 & w1 & Ho & Hm1).
    destruct (apply_op_total o self w) as (self2 & w2 & Ho2 & _ & Hwf2 & _).
    rewrite Ho in Ho2. injection Ho2 as <- <-.
    destruct (IH self1 w1 Hm1 (Hwf2 Hwf)) as (self' & w' & Hr & Hm' & Hre).
    exists self', w'. unfold_monad. by rewrite Ho, Hr.
Qed.

Lemma file_mirrors_memory_witness :
  ∃ self' w',
    run_ops sample_ops (mkTaskManager "tasks.json" [task_a]) world_a
    = (Ok self', w') ∧
    mirror self' w' ∧
    TaskManagerC.__init__ (filename self') w' = (Ok self', w').
Proof.
  apply (file_mirrors_memory sample_ops (mkTaskManager "tasks.json" [task_a])
           world_a).
  - vm_compute. reflexivity.
  - constructor; [|constructor]. repeat split; discriminate.
Defined.

(** ** Load on other documents *)

(** X10: when the file holds valid JSON that is not an array, Load yields
    the empty collection for an object without members and for an empty
    string, and raises [TypeError] for every other value (null, a boolean,
    a number, a non-empty string, an object with members); the world is
    left as it was. *)
Theorem load_not_array (fn : string) (w : World) (v : pyval) :
  fs w !! fn = Some (Document v) → is_array v = false →
  TaskManagerC._load_tasks fn w
  = (if is_empty_container v then Ok [] else Raise TypeError, w).
Proof.
  intros Hfs Hv. unfold TaskManagerC._load_tasks, try_except, json_load.
  unfold_monad. rewrite Hfs.
  destruct v as [| | |s|l|d]; try done.
  - by destruct s.
  - by destruct d as [|[k x] d].
Qed.

Lemma load_not_array_witness :
  TaskManagerC._load_tasks "tasks.json"
    (world_of {["tasks.json" := Document (PInt 7)]})
  = (if is_empty_container (PInt 7) then Ok [] else Raise TypeError,
     world_of {["tasks.json" := Document (PInt 7)]}).
Proof.
  apply (load_not_array "tasks.json"
           (world_of {["tasks.json" := Document (PInt 7)]}) (PInt 7)).
  - reflexivity.
  - reflexivity.
Defined.

Lemma from_dict_first_missing d k w :
  first_missing (PDict d) = Some k →
  TaskC.from_dict (PDict d) w = (Raise (KeyError k), w).
Proof.
  unfold first_missing, fields, has_key, TaskC.from_dict, subscript.
  unfold_monad. simpl.
  destruct (dict_get "id" d); simpl; [|by intros [= <-]].
  destruct (dict_get "description" d); simpl; [|by intros [= <-]].
  destruct (dict_get "status" d); simpl; [|by intros [= <-]].
  destruct (dict_get "createdAt" d); simpl; [|by intros [= <-]].
  destruct (dict_get "updatedAt" d); simpl; [done|by intros [= <-]].
Qed.

Lemma mapM_from_dict_prefix good item rest e w :
  Forall (fun i => is_record i = true) good →
  (∀ w0, TaskC.from_dict item w0 = (Raise e, w0)) →
  ∃ w', mapM TaskC.from_dict (good ++ item :: rest) w = (Raise e, w') ∧
        fs w' = fs w ∧ stdout w' = stdout w.
Proof.
  intros Hgood Hitem. revert w.
  induction Hgood as [|g good Hg _ IH]; intros w; simpl.
  - exists w. unfold_monad. by rewrite Hitem.
  - destruct (from_dict_record g w Hg) as (t & w1 & Ht & Hfs & Hout & _).
    destruct (IH w1) as (w' & Hm & Hfs' & Hout').
    exists w'. unfold_monad. rewrite Ht, Hm.
    split; [done|]. split; congruence.
Qed.

(** X11: a JSON array in which the first record that lacks one of the five
    fields lacks [k] first (in the order id, description, status,
    createdAt, updatedAt) makes Load, and with it the construction of the
    store, raise [KeyError k]; nothing is written or printed. *)
Theorem load_incomplete_record (fn : string) (w : World)
        (good rest : list pyval) (d : list (string * pyval)) (k : string) :
  fs w !! fn = Some (Document (PList (good ++ PDict d :: rest))) →
  Forall (fun i => is_record i = true) good →
  first_missing (PDict d) = Some k →
  ∃ w', TaskManagerC._load_tasks fn w = (Raise (KeyError k), w') ∧
        TaskManagerC.__init__ fn w = (Raise (KeyError k), w') ∧
        fs w' = fs w ∧ stdout w' = stdout w.
Proof.
  intros Hfs Hgood Hk.
  destruct (mapM_from_dict_prefix good (PDict d) rest (KeyError k) w Hgood)
    as (w' & Hm & Hfs' & Hout').
  { intros w0. by apply from_dict_first_missing. }
  exists w'.
  assert (Hl : TaskManagerC._load_tasks fn w = (Raise (KeyError k), w')).
  { unfold TaskManagerC._load_tasks, try_except, json_load.
    unfold_monad. rewrite Hfs. simpl. by rewrite Hm. }
  split; [done|]. split; [|done].
  unfold TaskManagerC.__init__. unfold_monad. by rewrite Hl.
Qed.

Lemma load_incomplete_record_witness :
  ∃ w', TaskManagerC._load_tasks "tasks.json"
          (world_of {["tasks.json" :=
             Document (PList ([TaskC.to_dict task_a] ++
                              PDict [("id", PStr "c"); ("description", PStr "x")]
                              :: [TaskC.to_dict task_b]))]})
        = (Raise (KeyError "status"), w') ∧
        TaskManagerC.__init__ "tasks.json"
          (world_of {["tasks.json" :=
             Document (PList ([TaskC.to_dict task_a] ++
                              PDict [("id", PStr "c"); ("description", PStr "x")]
                              :: [TaskC.to_dict task_b]))]})
        = (Raise (KeyError "status"), w') ∧
        fs w' = fs (world_of {["tasks.json" :=
             Document (PList ([TaskC.to_dict task_a] ++
                              PDict [("id", PStr "c"); ("description", PStr "x")]
                              :: [TaskC.to_dict task_b]))]}) ∧
        stdout w' = stdout (world_of {["tasks.json" :=
             Document (PList ([TaskC.to_dict task_a] ++
                              PDict [("id", PStr "c"); ("description", PStr "x")]
                              :: [TaskC.to_dict task_b]))]}).
Proof.
  apply (load_incomplete_record "tasks.json" _ [TaskC.to_dict task_a]
           [TaskC.to_dict task_b] [("id", PStr "c"); ("description", PStr "x")]
           "status").
  - reflexivity.
  - constructor; [reflexivity | constructor].
  - reflexivity.
Defined.

(** ** Listing *)

Lemma list_tasks_listing self wanted w :
  TaskManagerC.list_tasks self wanted w = (Ok tt, emit w (listing (tasks self))).
Proof.
  destruct (tasks self) as [|t l] eqn:E.
  - unfold TaskManagerC.list_tasks. by rewrite E.
  - rewrite list_tasks_eq by (by rewrite E). by rewrite E.
Qed.

Lemma length_flat_map_task_lines ts :
  length (flat_map task_lines ts) = 5 * length ts.
Proof. induction ts as [|t ts IH]; simpl; [done | rewrite IH; lia]. Qed.

(** X12: [list_tasks] always returns normally and only prints: for an empty
    collection the single line that no tasks are available, otherwise a
    header followed by the five lines of every task in stored order,
    whatever status was asked for; that is one line plus five per task,
    and the file system is untouched. *)
Theorem list_tasks_output (self : TaskManager) (wanted : option string)
        (w : World) :
  ∃ w',
    TaskManagerC.list_tasks self wanted w = (Ok tt, w') ∧
    stdout w' = stdout w ++ listing (tasks self) ∧
    length (stdout w') = length (stdout w) + 1 + 5 * length (tasks self) ∧
    fs w' = fs w.
Proof.
  eexists. split; [apply list_tasks_listing|]. simpl.
  split; [done|]. split; [|done].
  rewrite length_app. unfold listing.
  destruct (tasks self) as [|t l] eqn:E; simpl; [lia|].
  rewrite length_flat_map_task_lines. lia.
Qed.

(** ** Load leaves the files and the output alone *)

Lemma from_dict_quiet item w :
  fs (TaskC.from_dict item w).2 = fs w ∧
  stdout (TaskC.from_dict item w).2 = stdout w.
Proof.
  destruct (is_record item) eqn:Hrec.
  - by destruct (from_dict_record item w Hrec) as (t & w' & -> & ? & ? & _).
  - by destruct (from_dict_not_record item w Hrec) as (e & -> & _).
Qed.

Lemma mapM_from_dict_quiet items w :
  fs (mapM TaskC.from_dict items w).2 = fs w ∧
  stdout (mapM TaskC.from_dict items w).2 = stdout w.
Proof.
  revert w. induction items as [|item items IH]; intros w; simpl; [done|].
  pose proof (from_dict_quiet item w) as [Hfs Hout]. unfold_monad.
  destruct (TaskC.from_dict item w) as [[t|e] w1]; simpl in *; [|done].
  specialize (IH w1) as [Hfs1 Hout1].
  destruct (mapM TaskC.from_dict items w1) as [[ts|e] w2]; simpl in *;
    split; congruence.
Qed.

Lemma load_quiet fn w :
  fs (TaskManagerC._load_tasks fn w).2 = fs w ∧
  stdout (TaskManagerC._load_tasks fn w).2 = stdout w.
Proof.
  unfold TaskManagerC._load_tasks, try_except, json_load.
  pose proof mapM_from_dict_quiet as Hq. unfold_monad.
  destruct (fs w !! fn) as [[bytes|raw|data]|]; simpl; try done.
  destruct (py_iter data) as [items|e]; simpl; [|by destruct e].
  specialize (Hq items w).
  destruct (mapM TaskC.from_dict items w) as [[ts|e] w1]; simpl in *; [done|].
  by destruct e.
Qed.

Lemma init_quiet fn w :
  fs (TaskManagerC.__init__ fn w).2 = fs w ∧
  stdout (TaskManagerC.__init__ fn w).2 = stdout w.
Proof.
  unfold TaskManagerC.__init__. pose proof (load_quiet fn w) as Hq.
  unfold_monad.
  by destruct (TaskManagerC._load_tasks fn w) as [[ts|e] w1].
Qed.

(** ** The commands of [main] *)

(** X13: only [create] and [update] can change a file: for every other
    command line (mark, delete, list, no command), whether [main] returns
    or raises, the file system after it is the one before it. *)
Theorem main_without_save_keeps_files (inv : invocation) (w : World) :
  saves (cmd inv) = false → fs (main inv w).2 = fs w.
Proof.
  intros Hs. destruct inv as [fo c].
  pose proof (init_quiet (default "tasks.json" fo) w) as [Hfs _].
  destruct c as [[d|i d|i|i s|[s|]]|]; simpl in Hs; try done;
    unfold main, parse_args; simpl;
    try (destruct (in_choices s); simpl; [|done]);
    unfold_monad; simpl;
    destruct (TaskManagerC.__init__ (default "tasks.json" fo) w)
      as [[tm|e] w1]; simpl in *; try done;
    by rewrite list_tasks_listing.
Qed.

Lemma main_without_save_keeps_files_witness :
  fs (main (mkInvocation None (Some (Delete "a"))) world_a).2 = fs world_a.
Proof.
  apply (main_without_save_keeps_files
           (mkInvocation None (Some (Delete "a"))) world_a).
  reflexivity.
Defined.

(** X14: [main] has no branch for the delete command: once the store is
    loaded, [delete <id>] prints the usage text, as a command line without
    a command does, and [delete_task] is not called, so the collection and
    the file are what Load found. *)
Theorem main_delete_prints_usage (fo : option string) (i : string)
        (w : World) (tm : TaskManager) (w' : World) :
  TaskManagerC.__init__ (default "tasks.json" fo) w = (Ok tm, w') →
  main (mkInvocation fo (Some (Delete i))) w = (Ok tt, emit w' [Usage]) ∧
  main (mkInvocation fo None) w = (Ok tt, emit w' [Usage]) ∧
  fs (emit w' [Usage]) = fs w.
Proof.
  intros Hinit. pose proof (init_quiet (default "tasks.json" fo) w) as [Hfs _].
  rewrite Hinit in Hfs.
  split; [|split; [|done]]; unfold main, parse_args; simpl; unfold_monad;
    simpl; by rewrite Hinit.
Qed.

Lemma main_delete_prints_usage_witness :
  main (mkInvocation None (Some (Delete "a"))) world_a
  = (Ok tt, emit world_a [Usage]) ∧
  main (mkInvocation None None) world_a = (Ok tt, emit world_a [Usage]) ∧
  fs (emit world_a [Usage]) = fs world_a.
Proof.
  apply (main_delete_prints_usage None "a" world_a
           (mkTaskManager "tasks.json" [task_a]) world_a).
  vm_compute. reflexivity.
Defined.

(** X15: a status outside in-progress, todo, done is refused by the
    parser: [mark] and [list --status] stop with exit status 2 before the
    store is constructed, so nothing is read, written or printed. *)
Theorem main_rejects_other_status (fo : option string) (i s : string)
        (w : World) :
  in_choices s = false →
  main (mkInvocation fo (Some (Mark i s))) w = (Raise (SystemExit 2), w) ∧
  main (mkInvocation fo (Some (ListCmd (Some s)))) w = (Raise (SystemExit 2), w).
Proof.
  intros Hs. split; unfold main, parse_args; simpl; by rewrite Hs.
Qed.

Lemma main_rejects_other_status_witness :
  main (mkInvocation None (Some (Mark "a" "archived"))) world_a
  = (Raise (SystemExit 2), world_a) ∧
  main (mkInvocation None (Some (ListCmd (Some "archived")))) world_a
  = (Raise (SystemExit 2), world_a).
Proof.
  apply (main_rejects_other_status None "a" "archived" world_a).
  reflexivity.
Defined.

(** X16: once the store is loaded, [create], [update] and [list] do what
    the operation of the same name does on the loaded store, with the
    arguments of the command line: [main] returns normally in the world
    that operation leaves. *)
Theorem main_dispatch (fo : option string) (w : World) (tm : TaskManager)
        (w' : World) (i d : string) (o : option string) :
  TaskManagerC.__init__ (default "tasks.json" fo) w = (Ok tm, w') →
  (o = None ∨ ∃ s, o = Some s ∧ in_choices s = true) →
  main (mkInvocation fo (Some (Create d))) w
  = (Ok tt, (TaskManagerC.create_task tm (PStr d) w').2) ∧
  main (mkInvocation fo (Some (Update i d))) w
  = (Ok tt, (TaskManagerC.update_task tm (Some i) (PStr d) w').2) ∧
  main (mkInvocation fo (Some (ListCmd o))) w
  = (Ok tt, (TaskManagerC.list_tasks tm o w').2).
Proof.
  intros Hinit Ho. split; [|split].
  - rewrite (create_task_eq tm w').
    unfold main, parse_args. simpl. unfold_monad. simpl. by rewrite Hinit.
  - destruct (TaskManagerC._find_task tm (Some i)) as [[j t]|] eqn:Hfind.
    + rewrite (update_task_found tm w' (Some i) (PStr d) j t Hfind).
      unfold main, parse_args. simpl. unfold_monad. simpl. rewrite Hinit.
      unfold TaskManagerC.update_task. by rewrite Hfind.
    + rewrite (update_task_missing tm w' (Some i) (PStr d) Hfind).
      unfold main, parse_args. simpl. unfold_monad. simpl. rewrite Hinit.
      unfold TaskManagerC.update_task. by rewrite Hfind.
  - rewrite list_tasks_listing. simpl.
    destruct Ho as [->|(s & -> & Hs)]; unfold main, parse_args; simpl;
      try rewrite Hs; unfold_monad; simpl; rewrite Hinit;
      by rewrite list_tasks_listing.
Qed.

Lemma main_dispatch_witness :
  main (mkInvocation None (Some (Create "walk dog"))) world_a
  = (Ok tt, (TaskManagerC.create_task (mkTaskManager "tasks.json" [task_a])
               (PStr "walk dog") world_a).2) ∧
  main (mkInvocation None (Some (Update "a" "walk dog"))) world_a
  = (Ok tt, (TaskManagerC.update_task (mkTaskManager "tasks.json" [task_a])
               (Some "a") (PStr "walk dog") world_a).2) ∧
  main (mkInvocation None (Some (ListCmd (Some "done")))) world_a
  = (Ok tt, (TaskManagerC.list_tasks (mkTaskManager "tasks.json" [task_a])
               (Some "done") world_a).2).
Proof.
  apply (main_dispatch None world_a (mkTaskManager "tasks.json" [task_a])
           world_a "a" "walk dog" (Some "done")).
  - vm_compute. reflexivity.
  - right. exists "done". split; reflexivity.
Defined.

(** X17: when the construction of the store raises, every command that the
    parser accepts ends with that exception, create and list included;
    nothing is written or printed. *)
Theorem main_fails_when_load_fails (inv : invocation) (w : World)
        (args : Namespace) (e : exn) (w' : World) :
  parse_args inv = Ok args →
  TaskManagerC.__init__ (default "tasks.json" (opt_filename inv)) w
  = (Raise e, w') →
  main inv w = (Raise e, w') ∧ fs w' = fs w ∧ stdout w' = stdout w.
Proof.
  intros Hparse Hinit. destruct inv as [fo c]. simpl in Hinit.
  pose proof (init_quiet (default "tasks.json" fo) w) as [Hfs Hout].
  rewrite Hinit in Hfs, Hout. split; [|done]. clear Hfs Hout.
  revert Hparse. unfold main, parse_args. simpl.
  destruct c as [[d|i d|i|i s|[s|]]|]; simpl;
    try (destruct (in_choices s); simpl; [|done]);
    intros _; unfold_monad; simpl; by rewrite Hinit.
Qed.

Lemma main_fails_when_load_fails_witness :
  main (mkInvocation None (Some (Create "walk dog")))
       (world_of {["tasks.json" := Document file_missing_field]})
  = (Raise (KeyError "description"),
     world_of {["tasks.json" := Document file_missing_field]}) ∧
  fs (world_of {["tasks.json" := Document file_missing_field]})
  = fs (world_of {["tasks.json" := Document file_missing_field]}) ∧
  stdout (world_of {["tasks.json" := Document file_missing_field]})
  = stdout (world_of {["tasks.json" := Document file_missing_field]}).
Proof.
  apply (main_fails_when_load_fails
           (mkInvocation None (Some (Create "walk dog")))
           (world_of {["tasks.json" := Document file_missing_field]})
           [("filename", Some "tasks.json"); ("command", Some "create");
            ("description", Some "walk dog")]
           (KeyError "description")
           (world_of {["tasks.json" := Document file_missing_field]})).
  - reflexivity.
  - vm_compute. reflexivity.
Defined.

Lemma init_result fn w tm w0 :
  TaskManagerC.__init__ fn w = (Ok tm, w0) →
  filename tm = fn ∧ Forall task_wf (tasks tm).
Proof.
  unfold TaskManagerC.__init__. unfold_monad.
  destruct (TaskManagerC._load_tasks fn w) as [[ts|e] w1] eqn:Hl; [|done].
  intros [= <- _]. simpl. split; [done | by eapply load_wf].
Qed.

Lemma created_wf w d : task_wf (created w d).
Proof. by repeat split. Qed.

(** X18: what [create] saves is what the next run lists: when the store
    loads, [create <description>] returns normally, and [list] run in the
    world it leaves prints the header, the tasks that were loaded, in
    order, and the new task last. *)
Theorem create_then_list_next_run (fo : option string) (d : string)
        (w : World) (tm : TaskManager) (w0 : World) :
  TaskManagerC.__init__ (default "tasks.json" fo) w = (Ok tm, w0) →
  ∃ w1,
    main (mkInvocation fo (Some (Create d))) w = (Ok tt, w1) ∧
    main (mkInvocation fo (Some (ListCmd None))) w1
    = (Ok tt, emit w1 (Line [Lit "List of Tasks:"]
                         :: flat_map task_lines
                              (tasks tm ++ [created w0 (PStr d)]))).
Proof.
  intros Hinit. destruct (init_result _ _ _ _ Hinit) as [Hfn Hwf].
  set (tm' := mkTaskManager (filename tm) (tasks tm ++ [created w0 (PStr d)])).
  set (w1 := after_save (tick (tick (draw w0))) tm'
               [Lit "Task added successfully: "; Val (id (created w0 (PStr d)))]).
  assert (Hre : TaskManagerC.__init__ (default "tasks.json" fo) w1 = (Ok tm', w1)).
  { unfold TaskManagerC.__init__. unfold_monad.
    rewrite (load_records (default "tasks.json" fo) w1
               (map TaskC.to_dict (tasks tm')) (tasks tm')).
    - unfold tm'. by rewrite Hfn.
    - unfold w1. simpl. rewrite Hfn. apply lookup_insert_eq.
    - apply Forall2_fmap_l, Forall_Forall2_diag, Forall_forall.
      intros t _. apply to_dict_has_fields.
    - apply Forall_app. split; [done|]. constructor; [|constructor].
      apply created_wf. }
  exists w1. split.
  - unfold main, parse_args. simpl. unfold_monad. simpl. by rewrite Hinit.
  - unfold main, parse_args. simpl. unfold_monad. simpl. rewrite Hre.
    rewrite list_tasks_eq; [done|]. simpl. by destruct (tasks tm).
Qed.

Lemma create_then_list_next_run_witness :
  ∃ w1,
    main (mkInvocation None (Some (Create "walk dog"))) world_a = (Ok tt, w1) ∧
    main (mkInvocation None (Some (ListCmd None))) w1
    = (Ok tt, emit w1 (Line [Lit "List of Tasks:"]
                         :: flat_map task_lines
                              (tasks (mkTaskManager "tasks.json" [task_a])
                               ++ [created world_a (PStr "walk dog")]))).
Proof.
  apply (create_then_list_next_run None "walk dog" world_a
           (mkTaskManager "tasks.json" [task_a]) world_a).
  vm_compute. reflexivity.
Defined.

(** ** Create followed by Delete *)

(** X19: deleting the task that was just created restores the collection:
    when the identifier drawn is not already the id of a task, Create
    followed by Delete of the new id succeeds, leaves the collection it
    started from, and the backing file holds that collection. *)
Theorem create_then_delete (self : TaskManager) (d : pyval) (w : World) :
  (∀ t', t' ∈ tasks self → id t' ≠ PStr (uuid_src w (draws w))) →
  ∃ self1 w1 self2 w2,
    TaskManagerC.create_task self d w = (Ok self1, w1) ∧
    TaskManagerC.delete_task self1 (Some (uuid_src w (draws w))) w1
    = (Ok self2, w2) ∧
    self2 = self ∧ mirror self2 w2.
Proof.
  intros Hfresh.
  set (self1 := mkTaskManager (filename self) (tasks self ++ [created w d])).
  assert (Hfind : TaskManagerC._find_task self1 (Some (uuid_src w (draws w)))
                  = Some (length (tasks self), created w d)).
  { unfold TaskManagerC._find_task. simpl.
    apply (find_from_first 0 (Some (uuid_src w (draws w)))
             (tasks self ++ [created w d]) (length (tasks self))).
    - by apply list_lookup_middle.
    - done.
    - intros j t' Hlt Hj. rewrite lookup_app_l in Hj by done.
      apply Hfresh. by eapply list_elem_of_lookup_2. }
  eexists _, _, _, _. split; [apply create_task_eq|].
  split; [exact (delete_task_found self1 _ _ _ _ Hfind)|].
  assert (Hdel : delete (length (tasks self)) (tasks self ++ [created w d])
                 = tasks self).
  { rewrite delete_take_drop, take_app_length.
    rewrite drop_ge by (rewrite length_app; simpl; lia).
    by rewrite app_nil_r. }
  split.
  - simpl. rewrite Hdel. by destruct self.
  - unfold mirror. simpl. rewrite Hdel. apply lookup_insert_eq.
Qed.

Lemma create_then_delete_witness :
  ∃ self1 w1 self2 w2,
    TaskManagerC.create_task store_ab (PStr "water plants") empty_world
    = (Ok self1, w1) ∧
    TaskManagerC.delete_task self1
      (Some (uuid_src empty_world (draws empty_world))) w1 = (Ok self2, w2) ∧
    self2 = store_ab ∧ mirror self2 w2.
Proof.
  apply (create_then_delete store_ab (PStr "water plants") empty_world).
  intros t' Ht'. unfold store_ab in Ht'. simpl in Ht'.
  apply elem_of_cons in Ht' as [->|Ht']; [discriminate|].
  apply elem_of_cons in Ht' as [->|Ht']; [discriminate|].
  by apply not_elem_of_nil in Ht'.
Defined.

(** ** Records with a null id *)

(** X20: a record whose id is null is not rejected: [from_dict] gives the
    task the next identifier drawn from [uuid4], keeps the other four
    stored values, and uses up that draw, so that loading the same record
    again gives the task the following identifier. *)
Theorem from_dict_null_id (item d s c u : pyval) (w : World) :
  subscript item "id" = Ok PNone →
  subscript item "description" = Ok d →
  subscript item "status" = Ok s →
  subscript item "createdAt" = Ok c → c ≠ PNone →
  subscript item "updatedAt" = Ok u → u ≠ PNone →
  TaskC.from_dict item w
  = (Ok (mkTask (PStr (uuid_src w (draws w))) d s c u), draw w) ∧
  TaskC.from_dict item (draw w)
  = (Ok (mkTask (PStr (uuid_src w (S (draws w)))) d s c u), draw (draw w)).
Proof.
  intros Hi Hd Hs Hc Hcn Hu Hun.
  unfold TaskC.from_dict, TaskC.__init__. unfold_monad.
  rewrite Hi, Hd, Hs, Hc, Hu. simpl.
  by destruct c, u.
Qed.

Lemma from_dict_null_id_witness :
  TaskC.from_dict
    (PDict [("id", PNone); ("description", PStr "buy milk");
            ("status", PStr "todo");
            ("createdAt", PStr "2024-05-01 09:00:00");
            ("updatedAt", PStr "2024-05-01 09:00:00")]) empty_world
  = (Ok (mkTask (PStr (uuid_src empty_world (draws empty_world)))
                (PStr "buy milk") (PStr "todo")
                (PStr "2024-05-01 09:00:00") (PStr "2024-05-01 09:00:00")),
     draw empty_world) ∧
  TaskC.from_dict
    (PDict [("id", PNone); ("description", PStr "buy milk");
            ("status", PStr "todo");
            ("createdAt", PStr "2024-05-01 09:00:00");
            ("updatedAt", PStr "2024-05-01 09:00:00")]) (draw empty_world)
  = (Ok (mkTask (PStr (uuid_src empty_world (S (draws empty_world))))
                (PStr "buy milk") (PStr "todo")
                (PStr "2024-05-01 09:00:00") (PStr "2024-05-01 09:00:00")),
     draw (draw empty_world)).
Proof.
  apply (from_dict_null_id
           (PDict [("id", PNone); ("description", PStr "buy milk");
                   ("status", PStr "todo");
                   ("createdAt", PStr "2024-05-01 09:00:00");
                   ("updatedAt", PStr "2024-05-01 09:00:00")])
           (PStr "buy milk") (PStr "todo")
           (PStr "2024-05-01 09:00:00") (PStr "2024-05-01 09:00:00")
           empty_world).
  - reflexivity.
  - reflexivity.
  - reflexivity.
  - reflexivity.
  - discriminate.
  - reflexivity.
  - discriminate.
Defined.
